(** * cron-emu: a shallow embedding of [cron.py]

    The script reads a simulated current time [HH:MM] from the command
    line and a list of [<minute> <hour> <command>] lines from standard
    input, and prints for every line the next time the entry runs.

    Python values that flow through the script are either [int] or [str]
    (a schedule field is the integer parsed from the line, or the string
    ['*']), so the embedding keeps a small dynamically typed [value] and
    gives the comparison operators their Python 3 behaviour: [==] and [!=]
    between an [int] and a [str] are defined, [<] between them raises
    [TypeError]. *)

From Stdlib Require Import ZArith String Ascii List Bool Lia DecimalString.
Import ListNotations.

Local Open Scope string_scope.
Local Open Scope Z_scope.

(** ** Python values, exceptions and the two effects of the script *)

Module Py.

Inductive value : Type :=
| VInt (z : Z)
| VStr (s : string).

Inductive exn : Type :=
| TypeError
| ValueError
| IndexError.

(** How a computation ends: with a value, with an uncaught exception, or
    with [sys.exit(code)]. *)
Inductive outcome (A : Type) : Type :=
| Ok (a : A)
| Raise (e : exn)
| Exit (code : Z).

Arguments Ok {A} a.
Arguments Raise {A} e.
Arguments Exit {A} code.

Definition bind {A B : Type} (m : outcome A) (k : A -> outcome B) : outcome B :=
  match m with
  | Ok a => k a
  | Raise e => Raise e
  | Exit c => Exit c
  end.

(** [a == b] *)
Definition eqb (a b : value) : bool :=
  match a, b with
  | VInt x, VInt y => x =? y
  | VStr s, VStr t => String.eqb s t
  | _, _ => false
  end.

(** [a != b] *)
Definition neqb (a b : value) : bool := negb (eqb a b).

(** [a < b]: integers by value, strings lexicographically, and
    [TypeError] for an [int] against a [str]. *)
Definition lt (a b : value) : outcome bool :=
  match a, b with
  | VInt x, VInt y => Ok (x <? y)
  | VStr s, VStr t => Ok (String.ltb s t)
  | _, _ => Raise TypeError
  end.

(** [str(z)] for an integer. *)
Definition str_of_Z (z : Z) : string := NilZero.string_of_int (Z.to_int z).

(** [str(v)], which is also what the empty format spec of [format]
    prints. *)
Definition str (v : value) : string :=
  match v with
  | VInt z => str_of_Z z
  | VStr s => s
  end.

Fixpoint repeat_char (c : ascii) (n : nat) : string :=
  match n with
  | O => EmptyString
  | S n' => String c (repeat_char c n')
  end.

(** The format spec [0>2d]: the decimal text of an integer, right
    aligned in a field of width 2 filled with ['0']; a [str] argument
    raises [ValueError]. *)
Definition format_02d (v : value) : outcome string :=
  match v with
  | VInt z =>
      let s := str_of_Z z in
      Ok (repeat_char "0"%char (2 - String.length s)%nat ++ s)
  | VStr _ => Raise ValueError
  end.

(** [s.split(sep)] for a one-character separator: every occurrence
    splits, so adjacent separators give empty fields and the result is
    never empty. *)
Fixpoint split (sep : ascii) (s : string) : list string :=
  match s with
  | EmptyString => [EmptyString]
  | String c r =>
      if Ascii.eqb c sep then EmptyString :: split sep r
      else match split sep r with
           | h :: t => String c h :: t
           | [] => [String c EmptyString]
           end
  end.

(** [l[i]] *)
Definition index {A : Type} (l : list A) (i : nat) : outcome A :=
  match nth_error l i with
  | Some a => Ok a
  | None => Raise IndexError
  end.

(** [l[i] = a] for an index known to be in range at the call sites. *)
Fixpoint set_index {A : Type} (l : list A) (i : nat) (a : A) : list A :=
  match l, i with
  | [], _ => []
  | _ :: t, O => a :: t
  | h :: t, S i' => h :: set_index t i' a
  end.

Definition is_crlf (c : ascii) : bool :=
  Ascii.eqb c "013"%char || Ascii.eqb c "010"%char.

(** [s.rstrip('\r\n')] *)
Fixpoint rstrip_crlf (s : string) : string :=
  match s with
  | EmptyString => EmptyString
  | String c r =>
      match rstrip_crlf r with
      | EmptyString => if is_crlf c then EmptyString else String c EmptyString
      | r' => String c r'
      end
  end.

(** *** [int(s)] on a string of ASCII characters

    Surrounding whitespace is dropped, then an optional sign, then
    decimal digits in which single underscores may separate digits.
    Anything else is [ValueError] ([None] here).  Digits outside ASCII,
    which Python also accepts, are outside this model. *)

Definition is_space (c : ascii) : bool :=
  let n := nat_of_ascii c in
  (Nat.eqb n 32 || (Nat.leb 9 n && Nat.leb n 13))%bool.

Definition digit_of (c : ascii) : option Z :=
  let n := nat_of_ascii c in
  if (Nat.leb 48 n && Nat.leb n 57)%bool then Some (Z.of_nat (n - 48)%nat) else None.

Fixpoint lstrip (s : string) : string :=
  match s with
  | String c r => if is_space c then lstrip r else s
  | EmptyString => EmptyString
  end.

Fixpoint all_space (s : string) : bool :=
  match s with
  | EmptyString => true
  | String c r => is_space c && all_space r
  end.

(** [digits acc prev s]: [prev] tells whether the previous character
    was a digit, so that an underscore is only accepted between two
    digits. *)
Fixpoint digits (acc : Z) (prev : bool) (s : string) : option Z :=
  match s with
  | EmptyString => if prev then Some acc else None
  | String c r =>
      match digit_of c with
      | Some d => digits (10 * acc + d) true r
      | None =>
          if Ascii.eqb c "_"%char then
            if prev then
              match r with
              | String c' _ =>
                  match digit_of c' with
                  | Some _ => digits acc false r
                  | None => None
                  end
              | EmptyString => None
              end
            else None
          else if (prev && all_space s)%bool then Some acc
          else None
      end
  end.

Definition int (s : string) : option Z :=
  match lstrip s with
  | String "-" r => option_map Z.opp (digits 0 false r)
  | String "+" r => digits 0 false r
  | r => digits 0 false r
  end.

End Py.

Import Py.

Notation "x <- m ;; k" := (Py.bind m (fun x => k))
  (at level 61, m at next level, right associativity).

(** Standard output is the list of printed lines; a computation of the
    script yields what it printed and how it ended. *)
Definition io (A : Type) : Type := (list string * outcome A)%type.

Definition io_ret {A : Type} (a : A) : io A := ([], Ok a).

Definition io_bind {A B : Type} (m : io A) (k : A -> io B) : io B :=
  match m with
  | (out, Ok a) => let (out', r) := k a in ((out ++ out')%list, r)
  | (out, Raise e) => (out, Raise e)
  | (out, Exit c) => (out, Exit c)
  end.

Definition print (s : string) : io unit := ([s], Ok tt).

Definition sys_exit {A : Type} (code : Z) : io A := ([], Exit code).

Definition lift {A : Type} (m : outcome A) : io A := ([], m).

Notation "x <-- m ;;; k" := (io_bind m (fun x => k))
  (at level 61, m at next level, right associativity).
Notation "m ;;; k" := (io_bind m (fun _ => k))
  (at level 61, right associativity).

(** ** Data *)

(** [self.sct]: the simulated current time, a dict with two integers. *)
Record Sct : Type := mkSct { sct_hour : Z; sct_minute : Z }.

(** One parsed configuration line, a dict with keys [minute], [hour] and
    [command]. *)
Record Line : Type := mkLine {
  line_minute : value;
  line_hour : value;
  line_command : value
}.

(** The wildcard marker ['*']. *)
Definition star : value := VStr "*".

(** The two strings [_get_next_day] returns. *)
Inductive day : Type := today | tomorrow.

Definition day_str (d : day) : string :=
  match d with
  | today => "today"
  | tomorrow => "tomorrow"
  end.

(** ** class Cron *)

Section CronClass.

Variable sct : Sct.

Definition _get_next_day (hour minute : value) : outcome day :=
  if Py.eqb hour star then
    if sct_hour sct =? 23 then Ok tomorrow else Ok today
  else
    lt_hour <- Py.lt hour (VInt (sct_hour sct)) ;;
    if lt_hour then Ok tomorrow
    else
      overrun <- (if Py.eqb hour (VInt (sct_hour sct))
                  then Py.lt minute (VInt (sct_minute sct))
                  else Ok false) ;;
      if overrun then Ok tomorrow else Ok today.

Definition _get_next_hour (hour minute : value) : outcome value :=
  if Py.neqb hour star then Ok hour
  else
    this_hour <- Py.lt (VInt (sct_minute sct)) minute ;;
    if this_hour then Ok (VInt (sct_hour sct))
    else if sct_hour sct =? 23 then Ok (VInt 0)
    else Ok (VInt (sct_hour sct + 1)).

Definition _get_next_minute (minute : value) : value :=
  if Py.eqb minute star then VInt 0 else minute.

Definition _run_now (line : Line) : bool :=
  if Py.neqb (line_hour line) (VInt (sct_hour sct)) && Py.neqb (line_hour line) star
  then false
  else if Py.neqb (line_minute line) (VInt (sct_minute sct))
          && Py.neqb (line_minute line) star
  then false
  else true.

(** The [if]/[else] of [_print_runtime]: the hour, minute and day that
    the final [print] formats. *)
Definition runtime (line : Line) : outcome (value * value * day) :=
  if _run_now line then
    Ok (VInt (sct_hour sct), VInt (sct_minute sct), today)
  else
    hour <- _get_next_hour (line_hour line) (line_minute line) ;;
    let minute := _get_next_minute (line_minute line) in
    d <- _get_next_day hour minute ;;
    Ok (hour, minute, d).

(** ['{:}:{:0>2d} {:} {:}'.format(hour, minute, day, command)] *)
Definition format_runtime (hour minute : value) (d : day) (command : value)
  : outcome string :=
  mm <- Py.format_02d minute ;;
  Ok (Py.str hour ++ ":" ++ mm ++ " " ++ day_str d ++ " " ++ Py.str command).

Definition _print_runtime (line : Line) : io unit :=
  r <-- lift (runtime line) ;;;
  let '(hour, minute, d) := r in
  text <-- lift (format_runtime hour minute d (line_command line)) ;;;
  print text.

End CronClass.

(** ** class Config *)

Definition usage : string := "usage cron.py <simulated_current_time HH:MM> < config".

Definition _print_usage_and_exit {A : Type} (exit_code : Z) : io A :=
  print usage ;;; sys_exit exit_code.

(** [int(possible_int)] inside [try]/[except ValueError]; the handler
    prints and exits.  [int] of an integer is that integer. *)
Definition _parse_int (possible_int : value) (debug : string) (exit_code : Z) : io Z :=
  match possible_int with
  | VInt z => io_ret z
  | VStr s =>
      match Py.int s with
      | Some z => io_ret z
      | None =>
          print ("could not parse integer - invalid input: " ++ debug) ;;;
          _print_usage_and_exit exit_code
      end
  end.

(** A guard [if cond: print(msg); self._print_usage_and_exit(code)]. *)
Definition reject_if (cond : bool) (msg : string) (code : Z) : io unit :=
  if cond then print msg ;;; _print_usage_and_exit code else io_ret tt.

Definition _parse_sct (sct : string) : io Sct :=
  let spl := map VStr (Py.split ":" sct) in
  reject_if (negb (Nat.eqb (List.length spl) 2))
    "could not parse simulated_current_time - format should be HH:MM" 2 ;;;
  s0 <-- lift (Py.index spl 0) ;;;
  h <-- _parse_int s0 "HH" 3 ;;;
  let spl := Py.set_index spl 0 (VInt h) in
  s1 <-- lift (Py.index spl 1) ;;;
  m <-- _parse_int s1 "MM" 4 ;;;
  let spl := Py.set_index spl 1 (VInt m) in
  reject_if ((h <? 0) || (h >? 23))
    ("could not parse simulated_current_time hour - " ++ Py.str_of_Z h ++ " out of range") 4 ;;;
  reject_if ((m <? 0) || (m >? 59))
    ("could not parse simulated_current_time minute - " ++ Py.str_of_Z m ++ " out of range") 5 ;;;
  io_ret (mkSct h m).

Definition _parse_stdin_line (config_line : string) : io Line :=
  let spl := map VStr (Py.split " " config_line) in
  reject_if (String.eqb config_line "") "empty config line" 12 ;;;
  f0 <-- lift (Py.index spl 0) ;;;
  spl <-- (if Py.neqb f0 star then
             z <-- _parse_int f0 ("minute column " ++ config_line) 7 ;;;
             reject_if ((z <? 0) || (z >? 59))
               ("could not parse minute column - " ++ Py.str_of_Z z ++ " out of range") 10 ;;;
             io_ret (Py.set_index spl 0 (VInt z))
           else io_ret spl) ;;;
  f1 <-- lift (Py.index spl 1) ;;;
  spl <-- (if Py.neqb f1 star then
             z <-- _parse_int f1 ("hour column " ++ config_line) 8 ;;;
             let spl := Py.set_index spl 1 (VInt z) in
             (if (z <? 0) || (z >? 23) then
                shown <-- lift (Py.index spl 0) ;;;
                print ("could not parse hour column - " ++ Py.str shown ++ " out of range") ;;;
                _print_usage_and_exit 11
              else io_ret tt) ;;;
             io_ret spl
           else io_ret spl) ;;;
  minute <-- lift (Py.index spl 0) ;;;
  hour <-- lift (Py.index spl 1) ;;;
  command <-- lift (Py.index spl 2) ;;;
  io_ret (mkLine minute hour command).

(** Standard input is the list of strings that the successive
    [readline()] calls return while [select] reports the stream
    readable; an empty string is what [readline()] returns at end of
    file, and the end of the list is [select] reporting nothing to read. *)
Fixpoint get_stdin_loop (reads : list string) (config : list Line) : io (list Line) :=
  match reads with
  | [] =>
      reject_if (Nat.eqb (List.length config) 0) "no configuration input provided" 9 ;;;
      io_ret config
  | line :: rest =>
      if negb (String.eqb line "") then
        parsed <-- _parse_stdin_line (Py.rstrip_crlf line) ;;;
        get_stdin_loop rest (config ++ [parsed])%list
      else io_ret config
  end.

Definition get_stdin (reads : list string) : io (list Line) :=
  get_stdin_loop reads [].

(** [sys.argv] is the script name followed by the arguments. *)
Definition get_cla (argv : list string) : io Sct :=
  (if negb (Nat.eqb (List.length argv) 2) then _print_usage_and_exit 1 else io_ret tt) ;;;
  arg <-- lift (Py.index argv 1) ;;;
  _parse_sct arg.

(** [for line in stdin: self._print_runtime(line)] *)
Fixpoint print_runtimes (sct : Sct) (config : list Line) : io unit :=
  match config with
  | [] => io_ret tt
  | line :: rest => _print_runtime sct line ;;; print_runtimes sct rest
  end.

(** [Cron()]: the whole run, from [sys.argv] and standard input to what
    is printed and how the process ends. *)
Definition Cron__init__ (argv : list string) (reads : list string) : io unit :=
  sct <-- get_cla argv ;;;
  stdin <-- get_stdin reads ;;;
  print_runtimes sct stdin.

(** * Vocabulary of the properties *)

(** ** Well-formed inputs *)

(** A simulated current time as [_parse_sct] returns it. *)
Definition valid_sct (t : Sct) : bool :=
  (0 <=? sct_hour t) && (sct_hour t <=? 23) && (0 <=? sct_minute t) && (sct_minute t <=? 59).

(** A schedule field: the wildcard or an integer of the given range. *)
Definition wf_field (lo hi : Z) (v : value) : bool :=
  match v with
  | VInt z => (lo <=? z) && (z <=? hi)
  | VStr s => String.eqb s "*"
  end.

Definition wf_line (e : Line) : bool :=
  wf_field 0 59 (line_minute e) && wf_field 0 23 (line_hour e).

(** A time of day on one of the two days the script distinguishes. *)
Record slot : Type := mkSlot { slot_day : day; slot_hour : Z; slot_minute : Z }.

Definition day_rank (d : day) : Z :=
  match d with
  | today => 0
  | tomorrow => 1
  end.

(** Lexicographic order on (day, hour, minute), today before tomorrow. *)
Definition slot_le (a b : slot) : Prop :=
  day_rank (slot_day a) < day_rank (slot_day b) \/
  (day_rank (slot_day a) = day_rank (slot_day b) /\
   (slot_hour a < slot_hour b \/
    (slot_hour a = slot_hour b /\ slot_minute a <= slot_minute b))).

(** A field matches a value when it is the wildcard or that value. *)
Definition matches (f : value) (z : Z) : Prop := f = star \/ f = VInt z.

(** The slots at which entry [e] runs, from the current time on. *)
Definition fires (t : Sct) (e : Line) (s : slot) : Prop :=
  0 <= slot_hour s <= 23 /\ 0 <= slot_minute s <= 59 /\
  matches (line_hour e) (slot_hour s) /\
  matches (line_minute e) (slot_minute s) /\
  slot_le (mkSlot today (sct_hour t) (sct_minute t)) s.

(** The path condition of [self.sct['minute'] < minute] in
    [_get_next_hour] when called from [_print_runtime]: the entry does
    not fire immediately and its hour is the wildcard. *)
Definition reaches_minute_comparison (t : Sct) (e : Line) : bool :=
  negb (_run_now t e) && negb (Py.neqb (line_hour e) star).

(** Strings without a space, as the fields of a line are. *)
Fixpoint no_space (s : string) : bool :=
  match s with
  | EmptyString => true
  | String c r => negb (Ascii.eqb c " ") && no_space r
  end.

(** The part of a string before its first space, all of it when it has
    none. *)
Fixpoint before_space (s : string) : string :=
  match s with
  | EmptyString => EmptyString
  | String c r => if Ascii.eqb c " " then EmptyString else String c (before_space r)
  end.

(** How a field of the line becomes a field of the entry. *)
Definition parsed_field (f : string) (v : value) : Prop :=
  (f = "*" /\ v = star) \/ (exists z, Py.int f = Some z /\ v = VInt z).

(** C3 as stated: with a wildcard hour and no immediate
    run, the day is tomorrow exactly when the current hour is 23. *)
Definition wildcard_hour_day_by_current_hour (t : Sct) (e : Line) : Prop :=
  valid_sct t = true -> wf_line e = true ->
  line_hour e = star -> _run_now t e = false ->
  exists h m d,
    runtime t e = Ok (h, m, d) /\ (d = tomorrow <-> sct_hour t = 23).

(** C5 as stated: with a wildcard hour and the entry's
    minute equal to the current minute, the evaluation moves on to the
    next hour. *)
Definition equal_minute_advances (t : Sct) (e : Line) : Prop :=
  valid_sct t = true -> wf_line e = true ->
  line_hour e = star -> line_minute e = VInt (sct_minute t) ->
  exists h m d,
    runtime t e = Ok (VInt h, m, d) /\
    h = (if sct_hour t =? 23 then 0 else sct_hour t + 1).

(** C8 as stated: the command of the parsed entry is all
    that follows the minute and hour fields. *)
Definition command_is_remainder (minute hour remainder : string) : Prop :=
  forall out e,
    _parse_stdin_line (minute ++ " " ++ hour ++ " " ++ remainder) = (out, Ok e) ->
    line_command e = VStr remainder.

(** ** Vocabulary of the properties of the parsers and of a whole run *)

(** Strings in which the character [c] does not occur. *)
Fixpoint no_char (c : ascii) (s : string) : bool :=
  match s with
  | EmptyString => true
  | String c' r => negb (Ascii.eqb c' c) && no_char c r
  end.

(** The command line argument that denotes a time: [H:M]. *)
Definition show_sct (t : Sct) : string :=
  Py.str_of_Z (sct_hour t) ++ ":" ++ Py.str_of_Z (sct_minute t).

(** The configuration line that denotes an entry:
    [<minute> <hour> <command>]. *)
Definition show_line (e : Line) : string :=
  Py.str (line_minute e) ++ " " ++ Py.str (line_hour e) ++ " "
  ++ Py.str (line_command e).

(** The reads that [get_stdin] consumes as lines: those before the first
    empty read, which is the end of the file. *)
Fixpoint until_eof (reads : list string) : list string :=
  match reads with
  | [] => []
  | line :: rest => if String.eqb line "" then [] else line :: until_eof rest
  end.

(** Whether the reads contain the end of the file. *)
Fixpoint has_eof (reads : list string) : bool :=
  match reads with
  | [] => false
  | line :: rest => String.eqb line "" || has_eof rest
  end.

(** The time of day [h:m] lies before the current time. *)
Definition time_before (h m : Z) (t : Sct) : Prop :=
  h < sct_hour t \/ (h = sct_hour t /\ m < sct_minute t).

(** What the decimal text of a number of a schedule or of a time has to
    satisfy for the parsers to read it back: no separator in it, not the
    wildcard, [int] returns the number, and once padded it has two
    characters that [int] still reads as the number. *)
Definition decimal_ok (z : Z) : bool :=
  let s := Py.str_of_Z z in
  no_char " " s && no_char ":" s && negb (String.eqb s "*")
  && match Py.int s with Some z' => z' =? z | None => false end
  && match Py.format_02d (VInt z) with
     | Ok mm =>
         Nat.eqb (String.length mm) 2
         && match Py.int mm with Some z' => z' =? z | None => false end
     | _ => false
     end.

(** The exit statuses of the two parsers. *)
Definition sct_exit_codes : list Z := [2; 3; 4; 5].

Definition stdin_line_exit_codes : list Z := [7; 8; 10; 11; 12].

(** The exit statuses of a whole run. *)
Definition run_exit_codes : list Z := 1 :: sct_exit_codes ++ 9 :: stdin_line_exit_codes.

(** The read [line], its line end dropped, parses to the entry [e]. *)
Definition reads_as (line : string) (e : Line) : Prop :=
  _parse_stdin_line (Py.rstrip_crlf line) = ([], Ok e).

(** Evaluating [e] at time [t] prints the line [text] and nothing else. *)
Definition prints (t : Sct) (e : Line) (text : string) : Prop :=
  _print_runtime t e = ([text], Ok tt).

(** * Properties *)

(** ** The script on concrete inputs *)

Example str_of_Z_ex : map Py.str_of_Z [0; 7; -5; 123] = ["0"; "7"; "-5"; "123"].
Proof. reflexivity. Qed.

Example int_ex :
  map Py.int ["5"; " 5"; "+5"; "-5"; "1_0"; "_1"; "1_"; "1__0"; ""; "+"; "0x5"; "007"; "+ 5"; "*"]
  = [Some 5; Some 5; Some 5; Some (-5); Some 10; None; None; None; None; None; None;
     Some 7; None; None].
Proof. reflexivity. Qed.

Example split_ex :
  (Py.split " " "a  b", Py.split " " "", Py.split " " " ") = (["a"; ""; "b"], [""], [""; ""]).
Proof. reflexivity. Qed.

Example print_runtime_ex :
  _print_runtime (mkSct 23 30) (mkLine (VInt 10) star (VStr "/bin/x"))
  = (["0:10 tomorrow /bin/x"], Ok tt).
Proof. reflexivity. Qed.

(** The sample evaluations of the specification. *)
Example runtime_samples :
  map (fun '(t, e) => runtime t e)
    [ (mkSct 23 30, mkLine (VInt 10) star (VStr "c"));
      (mkSct 10 5, mkLine (VInt 20) star (VStr "c"));
      (mkSct 14 0, mkLine (VInt 30) (VInt 9) (VStr "c"));
      (mkSct 14 45, mkLine (VInt 10) (VInt 14) (VStr "c"));
      (mkSct 5 0, mkLine star (VInt 6) (VStr "c")) ]
  = [ Ok (VInt 0, VInt 10, tomorrow);
      Ok (VInt 10, VInt 20, today);
      Ok (VInt 9, VInt 30, tomorrow);
      Ok (VInt 14, VInt 10, tomorrow);
      Ok (VInt 6, VInt 0, today) ].
Proof. reflexivity. Qed.

Example cron_ex :
  Cron__init__ ["cron.py"; "16:10"]
       ["30 1 /bin/run_me_daily" ++ String "010" ""; "45 * /bin/run_me_hourly" ++ String "010" "";
        "* * /bin/run_me_every_minute" ++ String "010" ""; "* 19 /bin/run_me_sixty_times" ++ String "010" ""; ""]
  = (["1:30 tomorrow /bin/run_me_daily"; "16:45 today /bin/run_me_hourly";
      "16:10 today /bin/run_me_every_minute"; "19:00 today /bin/run_me_sixty_times"], Ok tt).
Proof. vm_compute. reflexivity. Qed.

(** ** Basic facts about the Python operators *)

(** Integer tests on symbolic integers are analysed with their
    specifications, never unfolded. *)
#[local] Arguments Z.eqb : simpl never.
#[local] Arguments Z.ltb : simpl never.
#[local] Arguments Z.leb : simpl never.
#[local] Arguments Z.gtb : simpl never.
#[local] Arguments Z.add : simpl never.

Lemma eqb_eq (a b : value) : Py.eqb a b = true <-> a = b.
Proof.
  destruct a as [x | s], b as [y | u]; simpl; split; intros H;
    try discriminate; try (inversion H; subst).
  - apply Z.eqb_eq in H. now subst.
  - apply Z.eqb_refl.
  - apply String.eqb_eq in H. now subst.
  - apply String.eqb_refl.
Qed.

Lemma neqb_false (a b : value) : Py.neqb a b = false <-> a = b.
Proof.
  unfold Py.neqb. rewrite negb_false_iff. apply eqb_eq.
Qed.

Lemma neqb_true (a b : value) : Py.neqb a b = true <-> a <> b.
Proof.
  unfold Py.neqb. rewrite negb_true_iff. split.
  - intros H E. apply eqb_eq in E. congruence.
  - intros H. destruct (Py.eqb a b) eqn:E; [apply eqb_eq in E; contradiction | reflexivity].
Qed.

Lemma wf_field_inv (lo hi : Z) (v : value) :
  wf_field lo hi v = true -> v = star \/ exists z, v = VInt z /\ lo <= z <= hi.
Proof.
  destruct v as [z | s]; simpl; intros H.
  - right. exists z. split; [reflexivity | lia].
  - left. apply String.eqb_eq in H. now subst.
Qed.

Lemma valid_sct_inv (t : Sct) :
  valid_sct t = true -> 0 <= sct_hour t <= 23 /\ 0 <= sct_minute t <= 59.
Proof. unfold valid_sct. lia. Qed.

(** Case analysis on a well-formed line: each field is the wildcard or
    an integer in range. *)
Ltac shapes e Hwf :=
  let Hm := fresh "Hm" in
  let Hh := fresh "Hh" in
  let em := fresh "em" in
  let eh := fresh "eh" in
  destruct e as [? ? ?]; unfold wf_line in Hwf; simpl in Hwf;
  apply andb_prop in Hwf; destruct Hwf as [Hm Hh];
  apply wf_field_inv in Hm; apply wf_field_inv in Hh;
  destruct Hm as [-> | (em & -> & Hm)]; destruct Hh as [-> | (eh & -> & Hh)].

(** Case analysis on the integer tests left in the goal. *)
Ltac ztests :=
  repeat match goal with
    | |- context [?a =? ?b] => destruct (Z.eqb_spec a b); simpl
    | |- context [?a <? ?b] => destruct (Z.ltb_spec a b); simpl
    end.

Ltac unfold_cron :=
  unfold runtime, _run_now, _get_next_hour, _get_next_minute, _get_next_day,
    Py.neqb, star; simpl.

(** ** The immediate-fire test *)

Lemma run_now_iff (t : Sct) (e : Line) :
  _run_now t e = true <->
  (line_hour e = VInt (sct_hour t) \/ line_hour e = star) /\
  (line_minute e = VInt (sct_minute t) \/ line_minute e = star).
Proof.
  unfold _run_now.
  destruct (Py.neqb (line_hour e) (VInt (sct_hour t))) eqn:H1;
  destruct (Py.neqb (line_hour e) star) eqn:H2;
  destruct (Py.neqb (line_minute e) (VInt (sct_minute t))) eqn:M1;
  destruct (Py.neqb (line_minute e) star) eqn:M2; simpl;
  repeat match goal with
    | H : Py.neqb _ _ = true |- _ => apply neqb_true in H
    | H : Py.neqb _ _ = false |- _ => apply neqb_false in H
    end;
  intuition congruence.
Qed.

Lemma runtime_now (t : Sct) (e : Line) :
  _run_now t e = true ->
  runtime t e = Ok (VInt (sct_hour t), VInt (sct_minute t), today).
Proof. unfold runtime. now intros ->. Qed.

(** Day resolution on integers, the only arguments it is given. *)
Lemma get_next_day_int (t : Sct) (h m : Z) :
  _get_next_day t (VInt h) (VInt m)
  = Ok (if (h <? sct_hour t) || ((h =? sct_hour t) && (m <? sct_minute t))
        then tomorrow else today).
Proof.
  unfold _get_next_day. simpl. ztests; reflexivity.
Qed.

(** The evaluation of a well-formed line never raises, whatever the
    integers of the current time are, and it resolves hour and minute to
    integers. *)
Lemma runtime_total (t : Sct) (e : Line) :
  wf_line e = true ->
  exists h m d, runtime t e = Ok (VInt h, VInt m, d).
Proof.
  intros Hwf. shapes e Hwf; unfold_cron; ztests; eauto.
Qed.

Lemma format_runtime_int (h m : Z) (d : day) (c : value) :
  exists mm,
    Py.format_02d (VInt m) = Ok mm /\
    format_runtime (VInt h) (VInt m) d c
    = Ok (Py.str_of_Z h ++ ":" ++ mm ++ " " ++ day_str d ++ " " ++ Py.str c).
Proof.
  unfold format_runtime. simpl. eauto.
Qed.

Lemma print_runtime_of_runtime (t : Sct) (e : Line) (h m : Z) (d : day) :
  runtime t e = Ok (VInt h, VInt m, d) ->
  exists mm,
    Py.format_02d (VInt m) = Ok mm /\
    _print_runtime t e
    = ([Py.str_of_Z h ++ ":" ++ mm ++ " " ++ day_str d ++ " " ++ Py.str (line_command e)],
       Ok tt).
Proof.
  intros H. unfold _print_runtime. rewrite H.
  destruct (format_runtime_int h m d (line_command e)) as (mm & Hmm & Hf).
  exists mm. split; [exact Hmm |]. unfold lift, io_bind. rewrite Hf. reflexivity.
Qed.

(** ** Next run time as the earliest matching slot *)

Ltac break_matches :=
  repeat match goal with
    | H : matches _ _ |- _ => destruct H as [H | H]
    | H : VInt _ = star |- _ => discriminate H
    | H : star = VInt _ |- _ => discriminate H
    | H : VInt _ = VStr _ |- _ => discriminate H
    | H : VStr _ = VInt _ |- _ => discriminate H
    | H : VInt _ = VInt _ |- _ => injection H as H
    end.

(** C1: for a valid current time and a well-formed entry, the evaluation
    returns the earliest slot, in the order (day, hour, minute) and not
    before the current time, whose hour and minute the entry's fields
    match. *)
Theorem runtime_earliest (t : Sct) (e : Line) :
  valid_sct t = true -> wf_line e = true ->
  exists h m d,
    runtime t e = Ok (VInt h, VInt m, d) /\
    fires t e (mkSlot d h m) /\
    forall s, fires t e s -> slot_le (mkSlot d h m) s.
Proof.
  intros Ht Hwf. apply valid_sct_inv in Ht. destruct Ht as [Hth Htm].
  shapes e Hwf; unfold_cron; ztests;
    do 3 eexists; (split; [reflexivity |]);
    (split;
     [ unfold fires, matches, slot_le, star; simpl;
       intuition (auto; try lia; right; f_equal; lia)
     | intros [d' h' m'] (Hh' & Hm' & Mh & Mm & Hle);
       unfold slot_le in *; simpl in *; break_matches; destruct d'; simpl in *; lia ]).
Qed.

Lemma runtime_earliest_witness :
  exists h m d,
    runtime (mkSct 23 30) (mkLine (VInt 10) star (VStr "/bin/job")) = Ok (VInt h, VInt m, d) /\
    fires (mkSct 23 30) (mkLine (VInt 10) star (VStr "/bin/job")) (mkSlot d h m) /\
    forall s, fires (mkSct 23 30) (mkLine (VInt 10) star (VStr "/bin/job")) s ->
              slot_le (mkSlot d h m) s.
Proof.
  apply (runtime_earliest (mkSct 23 30) (mkLine (VInt 10) star (VStr "/bin/job")));
    reflexivity.
Defined.

(** ** Firing immediately *)

(** C2: the entry fires immediately exactly when its hour is the current
    hour or the wildcard and its minute is the current minute or the
    wildcard; the evaluation then yields the current hour and minute,
    today, and the printed line carries the entry's command. *)
Theorem run_now_correct (t : Sct) (e : Line) :
  (_run_now t e = true <->
   (line_hour e = VInt (sct_hour t) \/ line_hour e = star) /\
   (line_minute e = VInt (sct_minute t) \/ line_minute e = star)) /\
  (_run_now t e = true ->
   runtime t e = Ok (VInt (sct_hour t), VInt (sct_minute t), today) /\
   exists mm,
     Py.format_02d (VInt (sct_minute t)) = Ok mm /\
     _print_runtime t e
     = ([Py.str_of_Z (sct_hour t) ++ ":" ++ mm ++ " today " ++ Py.str (line_command e)],
        Ok tt)).
Proof.
  split; [apply run_now_iff |].
  intros Hnow. pose proof (runtime_now t e Hnow) as Hr.
  split; [exact Hr |].
  destruct (print_runtime_of_runtime t e _ _ _ Hr) as (mm & Hmm & Hp).
  exists mm. split; [exact Hmm | exact Hp].
Qed.

Lemma run_now_correct_witness :
  runtime (mkSct 16 10) (mkLine star star (VStr "/bin/job"))
  = Ok (VInt 16, VInt 10, today) /\
  _print_runtime (mkSct 16 10) (mkLine star star (VStr "/bin/job"))
  = (["16:10 today /bin/job"], Ok tt).
Proof.
  destruct (run_now_correct (mkSct 16 10) (mkLine star star (VStr "/bin/job")))
    as [_ Hnow].
  destruct (Hnow eq_refl) as (Hr & mm & Hmm & Hp).
  split; [exact Hr |].
  injection Hmm as <-. exact Hp.
Defined.

(** ** Entries that fire on every hour *)

(** C3, counterexample: at 23:10 the entry [30 *] runs at 23:30 today,
    although the current hour is 23. *)
Lemma wildcard_hour_at_23_today :
  runtime (mkSct 23 10) (mkLine (VInt 30) star (VStr "/bin/job"))
  = Ok (VInt 23, VInt 30, today) /\
  ~ wildcard_hour_day_by_current_hour
      (mkSct 23 10) (mkLine (VInt 30) star (VStr "/bin/job")).
Proof.
  split; [reflexivity |].
  intros H.
  destruct H as (h & m & d & Hr & Hd); try reflexivity.
  vm_compute in Hr. injection Hr as <- <- <-.
  destruct Hd as [_ Hd]. specialize (Hd eq_refl). discriminate Hd.
Qed.

(** C3, amended: with a wildcard hour and no immediate run, the day is
    tomorrow exactly when the current hour is 23 and the entry's minute
    has passed in the current hour; otherwise it is today. *)
Theorem wildcard_hour_day (t : Sct) (e : Line) :
  valid_sct t = true -> wf_line e = true ->
  line_hour e = star -> _run_now t e = false ->
  exists em h d,
    line_minute e = VInt em /\
    runtime t e = Ok (VInt h, VInt em, d) /\
    (d = tomorrow <-> sct_hour t = 23 /\ em < sct_minute t).
Proof.
  intros Ht Hwf Hstar Hnow. apply valid_sct_inv in Ht.
  shapes e Hwf; simpl in Hstar; try discriminate Hstar;
    revert Hnow; unfold_cron; ztests; try discriminate; intros _;
    do 3 eexists; (split; [reflexivity |]); (split; [reflexivity |]);
    split; intros; try discriminate; try split; try reflexivity; lia.
Qed.

Lemma wildcard_hour_day_witness :
  exists em h d,
    line_minute (mkLine (VInt 10) star (VStr "/bin/job")) = VInt em /\
    runtime (mkSct 23 30) (mkLine (VInt 10) star (VStr "/bin/job"))
    = Ok (VInt h, VInt em, d) /\
    (d = tomorrow <-> sct_hour (mkSct 23 30) = 23 /\ em < sct_minute (mkSct 23 30)).
Proof.
  apply (wildcard_hour_day (mkSct 23 30) (mkLine (VInt 10) star (VStr "/bin/job")));
    reflexivity.
Defined.

(** ** Hour and minute resolution *)

(** C4: when the entry does not fire immediately, a concrete hour is
    kept; a wildcard hour resolves to the current hour if the current
    minute is strictly below the entry's minute, and to the next hour
    otherwise, 23 wrapping to 0; a wildcard minute resolves to 0 and a
    concrete minute to itself. *)
Theorem hour_minute_resolution (t : Sct) (e : Line) :
  valid_sct t = true -> wf_line e = true -> _run_now t e = false ->
  exists h m,
    _get_next_hour t (line_hour e) (line_minute e) = Ok (VInt h) /\
    _get_next_minute (line_minute e) = VInt m /\
    (exists d, runtime t e = Ok (VInt h, VInt m, d)) /\
    (forall eh, line_hour e = VInt eh -> h = eh) /\
    (line_hour e = star ->
     exists em, line_minute e = VInt em /\
       (sct_minute t < em -> h = sct_hour t) /\
       (~ sct_minute t < em ->
        (sct_hour t = 23 -> h = 0) /\ (sct_hour t <> 23 -> h = sct_hour t + 1))) /\
    (line_minute e = star -> m = 0) /\
    (forall em, line_minute e = VInt em -> m = em).
Proof.
  intros Ht Hwf Hnow. apply valid_sct_inv in Ht.
  shapes e Hwf; revert Hnow; unfold_cron; ztests; try discriminate; intros _;
    do 2 eexists; (split; [reflexivity |]); (split; [reflexivity |]);
    (split; [eexists; reflexivity |]);
    repeat split; intros; try discriminate;
    try match goal with
      | H : VInt _ = VInt _ |- _ => injection H as H
      end;
    try lia;
    eexists; (split; [reflexivity |]); repeat split; intros; lia.
Qed.

Lemma hour_minute_resolution_witness :
  exists h m,
    _get_next_hour (mkSct 23 30) star (VInt 10) = Ok (VInt h) /\
    _get_next_minute (VInt 10) = VInt m /\ h = 0 /\ m = 10.
Proof.
  destruct (hour_minute_resolution (mkSct 23 30) (mkLine (VInt 10) star (VStr "/bin/job")))
    as (h & m & Hh & Hm & _ & _ & Hstar & _ & Hint); try reflexivity.
  exists h, m. split; [exact Hh |]. split; [exact Hm |].
  destruct (Hstar eq_refl) as (em & Hem & _ & Hwrap).
  injection Hem as <-.
  split; [apply Hwrap; simpl; lia | apply Hint; reflexivity].
Defined.

(** C5, counterexample: at 10:05 the entry [5 *] fires at once, at 10:05
    today, and not at 11:05. *)
Lemma equal_minute_fires_now :
  _run_now (mkSct 10 5) (mkLine (VInt 5) star (VStr "/bin/job")) = true /\
  runtime (mkSct 10 5) (mkLine (VInt 5) star (VStr "/bin/job"))
  = Ok (VInt 10, VInt 5, today) /\
  ~ equal_minute_advances (mkSct 10 5) (mkLine (VInt 5) star (VStr "/bin/job")).
Proof.
  split; [reflexivity |]. split; [reflexivity |].
  intros H.
  destruct H as (h & m & d & Hr & Hh); try reflexivity.
  vm_compute in Hr. injection Hr as <- <- <-.
  vm_compute in Hh. discriminate Hh.
Qed.

(** C5, amended: with a wildcard hour and the entry's minute equal to
    the current minute the entry fires immediately, at the current hour
    and minute, today.  Hour resolution on its own would move such an
    entry to the next hour, its comparison being strict, but it is not
    reached for it. *)
Theorem equal_minute_runs_now (t : Sct) (e : Line) :
  line_hour e = star -> line_minute e = VInt (sct_minute t) ->
  _run_now t e = true /\
  runtime t e = Ok (VInt (sct_hour t), VInt (sct_minute t), today) /\
  _get_next_hour t (line_hour e) (line_minute e)
  = Ok (VInt (if sct_hour t =? 23 then 0 else sct_hour t + 1)).
Proof.
  intros Hh Hm.
  assert (Hnow : _run_now t e = true) by (apply run_now_iff; auto).
  split; [exact Hnow |]. split; [apply runtime_now; exact Hnow |].
  rewrite Hh, Hm. unfold_cron. rewrite Z.ltb_irrefl.
  destruct (sct_hour t =? 23); reflexivity.
Qed.

Lemma equal_minute_runs_now_witness :
  _run_now (mkSct 10 5) (mkLine (VInt 5) star (VStr "/bin/job")) = true /\
  runtime (mkSct 10 5) (mkLine (VInt 5) star (VStr "/bin/job"))
  = Ok (VInt 10, VInt 5, today) /\
  _get_next_hour (mkSct 10 5) star (VInt 5) = Ok (VInt 11).
Proof.
  apply (equal_minute_runs_now (mkSct 10 5) (mkLine (VInt 5) star (VStr "/bin/job")));
    reflexivity.
Defined.

(** ** Range of the result and absence of errors *)

(** C6: for a valid current time and a well-formed entry the resulting
    hour lies in 0..23 and the resulting minute in 0..59; the hour after
    23 is 0, never 24. *)
Theorem runtime_in_range (t : Sct) (e : Line) :
  valid_sct t = true -> wf_line e = true ->
  exists h m d,
    runtime t e = Ok (VInt h, VInt m, d) /\ 0 <= h <= 23 /\ 0 <= m <= 59.
Proof.
  intros Ht Hwf. apply valid_sct_inv in Ht.
  shapes e Hwf; unfold_cron; ztests; do 3 eexists;
    (split; [reflexivity | lia]).
Qed.

Lemma runtime_in_range_witness :
  exists h m d,
    runtime (mkSct 23 59) (mkLine (VInt 0) star (VStr "/bin/job")) = Ok (VInt h, VInt m, d) /\
    0 <= h <= 23 /\ 0 <= m <= 59.
Proof.
  apply (runtime_in_range (mkSct 23 59) (mkLine (VInt 0) star (VStr "/bin/job")));
    reflexivity.
Defined.

(** C7: for a valid current time and a well-formed entry the evaluation
    always ends normally, printing one line, and the comparison of the
    current minute with the entry's minute is reached only with an
    integer minute. *)
Theorem print_runtime_total (t : Sct) (e : Line) :
  valid_sct t = true -> wf_line e = true ->
  (exists text, _print_runtime t e = ([text], Ok tt)) /\
  (reaches_minute_comparison t e = true ->
   exists em b,
     line_minute e = VInt em /\
     Py.lt (VInt (sct_minute t)) (line_minute e) = Ok b).
Proof.
  intros _ Hwf. split.
  - destruct (runtime_total t e Hwf) as (h & m & d & Hr).
    destruct (print_runtime_of_runtime t e h m d Hr) as (mm & _ & Hp).
    eexists. exact Hp.
  - unfold reaches_minute_comparison. intros Hreach.
    apply andb_prop in Hreach. destruct Hreach as [Hnow Hstar].
    apply negb_true_iff in Hnow. apply negb_true_iff in Hstar.
    apply neqb_false in Hstar.
    destruct (line_minute e) as [em | s] eqn:Hm.
    + exists em. eexists. split; reflexivity.
    + exfalso. shapes e Hwf; simpl in *; discriminate.
Qed.

Lemma print_runtime_total_witness :
  (exists text,
     _print_runtime (mkSct 23 30) (mkLine (VInt 10) star (VStr "/bin/job"))
     = ([text], Ok tt)) /\
  exists em b,
    VInt 10 = VInt em /\ Py.lt (VInt 30) (VInt 10) = Ok b.
Proof.
  destruct (print_runtime_total (mkSct 23 30) (mkLine (VInt 10) star (VStr "/bin/job")))
    as [Hp Hc]; try reflexivity.
  split; [exact Hp | apply Hc; reflexivity].
Defined.

(** ** Day resolution *)

(** C10: when the entry does not fire immediately, [_get_next_day] is
    called on the resolved integer hour and minute, so its wildcard test
    fails, and the day is tomorrow exactly when the resolved hour is
    below the current hour, or equal to it with the resolved minute
    below the current minute. *)
Theorem next_day_on_resolved (t : Sct) (e : Line) :
  wf_line e = true -> _run_now t e = false ->
  exists h m d,
    _get_next_hour t (line_hour e) (line_minute e) = Ok (VInt h) /\
    _get_next_minute (line_minute e) = VInt m /\
    Py.eqb (VInt h) star = false /\
    _get_next_day t (VInt h) (VInt m) = Ok d /\
    runtime t e = Ok (VInt h, VInt m, d) /\
    (d = tomorrow <->
     h < sct_hour t \/ (h = sct_hour t /\ m < sct_minute t)).
Proof.
  intros Hwf Hnow.
  assert (exists h m,
             _get_next_hour t (line_hour e) (line_minute e) = Ok (VInt h) /\
             _get_next_minute (line_minute e) = VInt m) as (h & m & Hh & Hm).
  { shapes e Hwf; revert Hnow; unfold_cron; ztests; try discriminate; intros _; eauto. }
  exists h, m. eexists.
  split; [exact Hh |]. split; [exact Hm |]. split; [reflexivity |].
  split; [apply get_next_day_int |].
  split.
  - unfold runtime. rewrite Hnow, Hh. simpl. rewrite Hm, get_next_day_int. reflexivity.
  - ztests; split; intros; try discriminate; try reflexivity; lia.
Qed.

Lemma next_day_on_resolved_witness :
  exists h m d,
    _get_next_hour (mkSct 14 45) (VInt 14) (VInt 10) = Ok (VInt h) /\
    _get_next_minute (VInt 10) = VInt m /\
    Py.eqb (VInt h) star = false /\
    _get_next_day (mkSct 14 45) (VInt h) (VInt m) = Ok d /\
    runtime (mkSct 14 45) (mkLine (VInt 10) (VInt 14) (VStr "/bin/job"))
    = Ok (VInt h, VInt m, d) /\
    (d = tomorrow <-> h < 14 \/ (h = 14 /\ m < 45)).
Proof.
  apply (next_day_on_resolved (mkSct 14 45) (mkLine (VInt 10) (VInt 14) (VStr "/bin/job")));
    reflexivity.
Defined.

(** ** Parsing a configuration line *)

Lemma split_nonempty (sep : ascii) (s : string) : Py.split sep s <> [].
Proof.
  destruct s as [| c r]; simpl; [discriminate |].
  destruct (Ascii.eqb c sep); [discriminate |].
  destruct (Py.split sep r); discriminate.
Qed.

Lemma split_head (s : string) :
  exists rest, Py.split " " s = before_space s :: rest.
Proof.
  induction s as [| c r IH]; simpl.
  - eexists. reflexivity.
  - destruct (Ascii.eqb c " "); [eexists; reflexivity |].
    destruct IH as (rest & ->). eexists. reflexivity.
Qed.

Lemma split_field (a b : string) :
  no_space a = true -> Py.split " " (a ++ String " " b) = a :: Py.split " " b.
Proof.
  induction a as [| c r IH]; simpl; intros H.
  - reflexivity.
  - apply andb_prop in H. destruct H as [Hc Hr].
    apply negb_true_iff in Hc. rewrite Hc, (IH Hr). reflexivity.
Qed.

Lemma before_space_no_space (s : string) : no_space s = true -> before_space s = s.
Proof.
  induction s as [| c r IH]; simpl; intros H; [reflexivity |].
  apply andb_prop in H. destruct H as [Hc Hr].
  apply negb_true_iff in Hc. rewrite Hc, (IH Hr). reflexivity.
Qed.

Ltac parse_steps :=
  repeat (simpl;
          match goal with
          | |- context [if ?b then _ else _] => destruct b eqn:?
          | |- context [match Py.int ?s with _ => _ end] => destruct (Py.int s) eqn:?
          end).

(** A line that parses has at least three fields; nothing is printed,
    the entry is well formed and its command is the third field. *)
Lemma parse_stdin_line_ok (line : string) (out : list string) (e : Line) :
  _parse_stdin_line line = (out, Ok e) ->
  out = [] /\ wf_line e = true /\
  exists f0 f1 c rest,
    Py.split " " line = f0 :: f1 :: c :: rest /\
    parsed_field f0 (line_minute e) /\
    parsed_field f1 (line_hour e) /\
    line_command e = VStr c.
Proof.
  unfold _parse_stdin_line, reject_if, _parse_int, _print_usage_and_exit, Py.neqb, star.
  destruct (Py.split " " line) as [| f0 [| f1 [| c rest]]]; parse_steps;
    intros H; try discriminate H.
  all: cbn in H; injection H as <- <-;
    repeat match goal with
      | H : negb _ = false |- _ =>
          apply negb_false_iff in H; apply String.eqb_eq in H; subst
      end;
    (split; [reflexivity |]);
    (split; [unfold wf_line, wf_field; simpl; lia |]);
    do 4 eexists; (split; [reflexivity |]);
    unfold parsed_field, star; simpl; repeat split; eauto.
Qed.

(** C8, counterexample: of the line [30 1 /bin/run me] only [/bin/run]
    becomes the command, and only that is printed. *)
Lemma command_stops_at_space :
  _parse_stdin_line "30 1 /bin/run me"
  = ([], Ok (mkLine (VInt 30) (VInt 1) (VStr "/bin/run"))) /\
  Cron__init__ ["cron.py"; "16:10"] ["30 1 /bin/run me" ++ String "010" ""; ""]
  = (["1:30 tomorrow /bin/run"], Ok tt) /\
  ~ command_is_remainder "30" "1" "/bin/run me".
Proof.
  split; [reflexivity |]. split; [reflexivity |].
  intros H. specialize (H [] _ eq_refl). discriminate H.
Qed.

(** C8, amended: for a line [<minute> <hour> <remainder>] that parses,
    the command is the remainder up to its first space, hence all of it
    when it has no space, and that command ends the printed line
    unchanged. *)
Theorem command_is_third_field
  (minute hour remainder : string) (out : list string) (e : Line) :
  no_space minute = true -> no_space hour = true ->
  _parse_stdin_line (minute ++ " " ++ hour ++ " " ++ remainder) = (out, Ok e) ->
  line_command e = VStr (before_space remainder) /\
  (no_space remainder = true -> line_command e = VStr remainder) /\
  forall t, exists h mm d,
    _print_runtime t e
    = ([Py.str_of_Z h ++ ":" ++ mm ++ " " ++ day_str d ++ " " ++ before_space remainder],
       Ok tt).
Proof.
  intros Hmi Hho Hparse.
  destruct (parse_stdin_line_ok _ _ _ Hparse)
    as (_ & Hwf & f0 & f1 & c & rest & Hsplit & _ & _ & Hc).
  change (minute ++ " " ++ hour ++ " " ++ remainder)
    with (minute ++ String " " (hour ++ String " " remainder)) in Hsplit.
  rewrite (split_field _ _ Hmi), (split_field _ _ Hho) in Hsplit.
  destruct (split_head remainder) as (tl & Hhead).
  rewrite Hhead in Hsplit. injection Hsplit as _ _ <- _.
  split; [exact Hc |].
  split.
  - intros Hre. rewrite Hc, (before_space_no_space _ Hre). reflexivity.
  - intros t. destruct (runtime_total t e Hwf) as (h & m & d & Hr).
    destruct (print_runtime_of_runtime t e h m d Hr) as (mm & _ & Hp).
    exists h, mm, d. rewrite Hp, Hc. reflexivity.
Qed.

Lemma command_is_third_field_witness :
  line_command (mkLine (VInt 30) (VInt 1) (VStr "/bin/run")) = VStr "/bin/run" /\
  exists h mm d,
    _print_runtime (mkSct 16 10) (mkLine (VInt 30) (VInt 1) (VStr "/bin/run"))
    = ([Py.str_of_Z h ++ ":" ++ mm ++ " " ++ day_str d ++ " " ++ "/bin/run"], Ok tt).
Proof.
  destruct (command_is_third_field "30" "1" "/bin/run me" []
              (mkLine (VInt 30) (VInt 1) (VStr "/bin/run")))
    as (Hc & _ & Hp); try reflexivity.
  split; [exact Hc | exact (Hp (mkSct 16 10))].
Defined.

(** ** Rejected lines *)

(** A concrete minute out of range is rejected with its own message and
    exit status 10. *)
Lemma minute_out_of_range_rejected (line f0 : string) (rest : list string) (z : Z) :
  Py.split " " line = f0 :: rest -> Py.int f0 = Some z -> z < 0 \/ 59 < z ->
  _parse_stdin_line line
  = (["could not parse minute column - " ++ Py.str_of_Z z ++ " out of range"; usage],
     Exit 10).
Proof.
  intros Hsplit Hint Hrange.
  assert (Hline : String.eqb line "" = false).
  { destruct line; [| reflexivity].
    simpl in Hsplit. injection Hsplit as <- _. discriminate Hint. }
  assert (Hstar : String.eqb f0 "*" = false).
  { destruct (String.eqb_spec f0 "*") as [-> |]; [discriminate Hint | reflexivity]. }
  unfold _parse_stdin_line, reject_if, _parse_int, _print_usage_and_exit, Py.neqb, star.
  rewrite Hsplit, Hline. simpl. rewrite Hstar, Hint. simpl.
  replace ((z <? 0) || (z >? 59)) with true by lia.
  reflexivity.
Qed.

(** With an acceptable minute field, a concrete hour out of range is
    rejected with exit status 11; the message shows the minute field. *)
Lemma hour_out_of_range_rejected
  (line f0 f1 : string) (rest : list string) (mi : value) (z : Z) :
  Py.split " " line = f0 :: f1 :: rest ->
  parsed_field f0 mi -> wf_field 0 59 mi = true ->
  Py.int f1 = Some z -> z < 0 \/ 23 < z ->
  _parse_stdin_line line
  = (["could not parse hour column - " ++ Py.str mi ++ " out of range"; usage], Exit 11).
Proof.
  intros Hsplit Hf0 Hwf Hint Hrange.
  assert (Hline : String.eqb line "" = false).
  { destruct line; [discriminate Hsplit | reflexivity]. }
  assert (Hstar : String.eqb f1 "*" = false).
  { destruct (String.eqb_spec f1 "*") as [-> |]; [discriminate Hint | reflexivity]. }
  unfold _parse_stdin_line, reject_if, _parse_int, _print_usage_and_exit, Py.neqb, star.
  rewrite Hsplit, Hline. simpl.
  destruct Hf0 as [[-> ->] | (m & Hm & ->)].
  - simpl. rewrite Hstar, Hint. simpl.
    replace ((z <? 0) || (z >? 23)) with true by lia. reflexivity.
  - assert (Hstar0 : String.eqb f0 "*" = false).
    { destruct (String.eqb_spec f0 "*") as [-> |]; [discriminate Hm | reflexivity]. }
    rewrite Hstar0, Hm. simpl. simpl in Hwf.
    replace ((m <? 0) || (m >? 59)) with false by lia.
    simpl. rewrite Hstar, Hint. simpl.
    replace ((z <? 0) || (z >? 23)) with true by lia. reflexivity.
Qed.

(** A line rejected while standard input is read ends the run before any
    run time is printed: the output is that of the parsers alone. *)
Lemma rejection_precedes_evaluation
  (argv reads : list string) (t : Sct) (out1 out2 : list string) (code : Z) :
  get_cla argv = (out1, Ok t) ->
  get_stdin reads = (out2, Exit code) ->
  Cron__init__ argv reads = ((out1 ++ out2)%list, Exit code).
Proof.
  intros Hcla Hin. unfold Cron__init__, io_bind. rewrite Hcla, Hin. reflexivity.
Qed.

(** C9, the failing input: the line [30 1] has in-range fields and no
    command; parsing it raises [IndexError], which nothing catches, so
    the run ends with a traceback instead of a diagnostic and a status
    of its own. *)
Theorem missing_command_unhandled :
  _parse_stdin_line "30 1" = ([], Raise IndexError) /\
  Cron__init__ ["cron.py"; "16:10"] ["30 1" ++ String "010" ""; ""] = ([], Raise IndexError).
Proof.
  split; reflexivity.
Qed.

(** * Further properties of the parsers and of a whole run *)

(** ** Decimal texts and fields *)

Lemma decimal_ok_upto_59 (z : Z) : 0 <= z <= 59 -> decimal_ok z = true.
Proof.
  intros Hz.
  assert (Hall : forallb decimal_ok (map Z.of_nat (seq 0 60)) = true)
    by (vm_compute; reflexivity).
  rewrite forallb_forall in Hall. apply Hall.
  apply in_map_iff. exists (Z.to_nat z). split; [lia |].
  apply in_seq. lia.
Qed.

Lemma decimal_facts (z : Z) :
  0 <= z <= 59 ->
  no_char " " (Py.str_of_Z z) = true /\
  no_char ":" (Py.str_of_Z z) = true /\
  String.eqb (Py.str_of_Z z) "*" = false /\
  Py.int (Py.str_of_Z z) = Some z /\
  exists mm,
    Py.format_02d (VInt z) = Ok mm /\ String.length mm = 2%nat /\ Py.int mm = Some z.
Proof.
  intros Hz. pose proof (decimal_ok_upto_59 z Hz) as H.
  unfold decimal_ok in H. cbv zeta in H.
  destruct (andb_prop _ _ H) as [H1 Hfmt]. destruct (andb_prop _ _ H1) as [H2 Hint].
  destruct (andb_prop _ _ H2) as [H3 Hstar]. destruct (andb_prop _ _ H3) as [Hsp Hcol].
  split; [exact Hsp |]. split; [exact Hcol |].
  split; [apply negb_true_iff; exact Hstar |].
  split.
  - destruct (Py.int (Py.str_of_Z z)) as [z' |]; [| discriminate].
    f_equal. lia.
  - unfold Py.format_02d in Hfmt |- *. cbv zeta in Hfmt |- *.
    apply andb_prop in Hfmt. destruct Hfmt as [Hlen Hback].
    apply Nat.eqb_eq in Hlen.
    eexists. split; [reflexivity |]. split; [exact Hlen |].
    match goal with
    | |- Py.int ?s = _ => destruct (Py.int s) as [z' |]; [| discriminate]
    end.
    f_equal. lia.
Qed.

Lemma split_sep_app (sep : ascii) (a b : string) :
  no_char sep a = true -> Py.split sep (a ++ String sep b) = a :: Py.split sep b.
Proof.
  induction a as [| c r IH]; simpl; intros H.
  - rewrite Ascii.eqb_refl. reflexivity.
  - apply andb_prop in H. destruct H as [Hc Hr].
    apply negb_true_iff in Hc. rewrite Hc, (IH Hr). reflexivity.
Qed.

Lemma split_no_sep (sep : ascii) (a : string) :
  no_char sep a = true -> Py.split sep a = [a].
Proof.
  induction a as [| c r IH]; simpl; intros H; [reflexivity |].
  apply andb_prop in H. destruct H as [Hc Hr].
  apply negb_true_iff in Hc. rewrite Hc, (IH Hr). reflexivity.
Qed.

Lemma no_space_no_char (s : string) : no_space s = no_char " " s.
Proof.
  induction s as [| c r IH]; simpl; [reflexivity | now rewrite IH].
Qed.

(** ** The simulated current time *)

Ltac unfold_parsers :=
  unfold _parse_sct, _parse_stdin_line, reject_if, _parse_int, _print_usage_and_exit,
    Py.neqb, star.

(** Every way [_parse_sct] can end. *)
Lemma parse_sct_cases (s : string) (out : list string) (r : outcome Sct) :
  _parse_sct s = (out, r) ->
  match r with
  | Ok t =>
      out = [] /\ valid_sct t = true /\
      exists hs ms,
        Py.split ":" s = [hs; ms] /\
        Py.int hs = Some (sct_hour t) /\ Py.int ms = Some (sct_minute t)
  | Raise _ => False
  | Exit code => In code sct_exit_codes /\ exists msg, out = [msg; usage]
  end.
Proof.
  unfold_parsers.
  destruct (Py.split ":" s) as [| hs [| ms [| x rest]]]; parse_steps;
    intros H; cbn in H; injection H as <- <-; simpl; eauto 8.
  split; [reflexivity |]. split; [unfold valid_sct; simpl; lia |].
  do 2 eexists. split; [reflexivity |]. split; assumption.
Qed.

(** [_parse_sct] never ends with an exception: it returns a time without
    printing, or prints one message and the usage line and exits with
    status 2, 3, 4 or 5. *)
Theorem parse_sct_outcomes (s : string) :
  (exists t, _parse_sct s = ([], Ok t)) \/
  (exists msg code,
      _parse_sct s = ([msg; usage], Exit code) /\ In code sct_exit_codes).
Proof.
  destruct (_parse_sct s) as [out r] eqn:E.
  pose proof (parse_sct_cases s out r E) as H.
  destruct r as [t | e | code].
  - destruct H as (-> & _). left. eauto.
  - contradiction.
  - destruct H as (Hin & msg & ->). right. eauto.
Qed.

(** A time that [_parse_sct] returns is valid, hour in 0..23 and minute in
    0..59, and its two numbers are what [int] reads on either side of the
    single colon of the argument. *)
Theorem parse_sct_valid (s : string) (out : list string) (t : Sct) :
  _parse_sct s = (out, Ok t) ->
  out = [] /\ valid_sct t = true /\
  exists hs ms,
    Py.split ":" s = [hs; ms] /\
    Py.int hs = Some (sct_hour t) /\ Py.int ms = Some (sct_minute t).
Proof.
  intros H. exact (parse_sct_cases s out (Ok t) H).
Qed.

Lemma parse_sct_valid_witness :
  valid_sct (mkSct 7 5) = true /\
  exists hs ms,
    Py.split ":" "07:05" = [hs; ms] /\ Py.int hs = Some 7 /\ Py.int ms = Some 5.
Proof.
  destruct (parse_sct_valid "07:05" [] (mkSct 7 5)) as (_ & Hv & Hs);
    [reflexivity |].
  split; [exact Hv | exact Hs].
Defined.

(** An argument that does not consist of exactly two parts around one
    colon is rejected with exit status 2. *)
Theorem parse_sct_wrong_shape (s : string) :
  List.length (Py.split ":" s) <> 2%nat ->
  _parse_sct s
  = (["could not parse simulated_current_time - format should be HH:MM"; usage], Exit 2).
Proof.
  intros Hlen. unfold_parsers. rewrite length_map.
  destruct (Nat.eqb_spec (List.length (Py.split ":" s)) 2) as [E | _];
    [contradiction | reflexivity].
Qed.

Lemma parse_sct_wrong_shape_witness :
  _parse_sct "16:10:00"
  = (["could not parse simulated_current_time - format should be HH:MM"; usage], Exit 2).
Proof.
  apply (parse_sct_wrong_shape "16:10:00"). simpl. lia.
Defined.

(** An hour part that [int] cannot read is rejected with exit status 3,
    before the minute part is looked at. *)
Theorem parse_sct_bad_hour (s hs ms : string) :
  Py.split ":" s = [hs; ms] -> Py.int hs = None ->
  _parse_sct s = (["could not parse integer - invalid input: HH"; usage], Exit 3).
Proof.
  intros Hs Hh. unfold_parsers. rewrite Hs. simpl. rewrite Hh. reflexivity.
Qed.

Lemma parse_sct_bad_hour_witness :
  _parse_sct "ab:cd" = (["could not parse integer - invalid input: HH"; usage], Exit 3).
Proof.
  apply (parse_sct_bad_hour "ab:cd" "ab" "cd"); reflexivity.
Defined.

(** A minute part that [int] cannot read is rejected with exit status 4,
    whatever the hour is, in range or not. *)
Theorem parse_sct_bad_minute (s hs ms : string) (h : Z) :
  Py.split ":" s = [hs; ms] -> Py.int hs = Some h -> Py.int ms = None ->
  _parse_sct s = (["could not parse integer - invalid input: MM"; usage], Exit 4).
Proof.
  intros Hs Hh Hm. unfold_parsers. rewrite Hs. simpl. rewrite Hh. simpl.
  rewrite Hm. reflexivity.
Qed.

Lemma parse_sct_bad_minute_witness :
  _parse_sct "99:xx" = (["could not parse integer - invalid input: MM"; usage], Exit 4).
Proof.
  apply (parse_sct_bad_minute "99:xx" "99" "xx" 99); reflexivity.
Defined.

(** An hour outside 0..23 is rejected with exit status 4 as well, the
    status of an unreadable minute, under a message of its own; the
    minute's range is not looked at. *)
Theorem parse_sct_hour_range (s hs ms : string) (h m : Z) :
  Py.split ":" s = [hs; ms] -> Py.int hs = Some h -> Py.int ms = Some m ->
  h < 0 \/ 23 < h ->
  _parse_sct s
  = (["could not parse simulated_current_time hour - " ++ Py.str_of_Z h ++ " out of range";
      usage], Exit 4).
Proof.
  intros Hs Hh Hm Hr. unfold_parsers. rewrite Hs. simpl. rewrite Hh. simpl.
  rewrite Hm. simpl.
  replace ((h <? 0) || (h >? 23)) with true by lia. reflexivity.
Qed.

Lemma parse_sct_hour_range_witness :
  _parse_sct "24:75"
  = (["could not parse simulated_current_time hour - 24 out of range"; usage], Exit 4).
Proof.
  apply (parse_sct_hour_range "24:75" "24" "75" 24 75); try reflexivity. lia.
Defined.

(** With an hour in range, a minute outside 0..59 is rejected with exit
    status 5. *)
Theorem parse_sct_minute_range (s hs ms : string) (h m : Z) :
  Py.split ":" s = [hs; ms] -> Py.int hs = Some h -> Py.int ms = Some m ->
  0 <= h <= 23 -> m < 0 \/ 59 < m ->
  _parse_sct s
  = (["could not parse simulated_current_time minute - " ++ Py.str_of_Z m ++ " out of range";
      usage], Exit 5).
Proof.
  intros Hs Hh Hm Hhr Hmr. unfold_parsers. rewrite Hs. simpl. rewrite Hh. simpl.
  rewrite Hm. simpl.
  replace ((h <? 0) || (h >? 23)) with false by lia. simpl.
  replace ((m <? 0) || (m >? 59)) with true by lia. reflexivity.
Qed.

Lemma parse_sct_minute_range_witness :
  _parse_sct "23:-1"
  = (["could not parse simulated_current_time minute - -1 out of range"; usage], Exit 5).
Proof.
  apply (parse_sct_minute_range "23:-1" "23" "-1" 23 (-1)); try reflexivity; lia.
Defined.

(** Round trip: the argument [H:M] written from a valid time is read
    back as that time, without output. *)
Theorem parse_show_sct (t : Sct) :
  valid_sct t = true -> _parse_sct (show_sct t) = ([], Ok t).
Proof.
  intros Hv. apply valid_sct_inv in Hv. destruct Hv as [Hh Hm].
  destruct t as [h m]. simpl in Hh, Hm.
  destruct (decimal_facts h) as (_ & Hch & _ & Hih & _); [lia |].
  destruct (decimal_facts m) as (_ & Hcm & _ & Him & _); [lia |].
  unfold_parsers. unfold show_sct. simpl sct_hour. simpl sct_minute.
  change (Py.str_of_Z h ++ ":" ++ Py.str_of_Z m)
    with (Py.str_of_Z h ++ String ":" (Py.str_of_Z m)).
  rewrite (split_sep_app _ _ _ Hch), (split_no_sep _ _ Hcm). simpl.
  rewrite Hih. simpl. rewrite Him. simpl.
  replace ((h <? 0) || (h >? 23)) with false by lia. simpl.
  replace ((m <? 0) || (m >? 59)) with false by lia. reflexivity.
Qed.

Lemma parse_show_sct_witness : _parse_sct "16:10" = ([], Ok (mkSct 16 10)).
Proof.
  apply (parse_show_sct (mkSct 16 10)). reflexivity.
Defined.

(** ** Configuration lines *)

Lemma int_not_star (f : string) (z : Z) : Py.int f = Some z -> String.eqb f "*" = false.
Proof.
  intros H. destruct (String.eqb_spec f "*") as [-> |]; [discriminate H | reflexivity].
Qed.

Lemma split_three_nonempty (line f0 f1 : string) (rest : list string) :
  Py.split " " line = f0 :: f1 :: rest -> String.eqb line "" = false.
Proof.
  destruct line; [discriminate | reflexivity].
Qed.

(** A line of at least three fields whose first two are acceptable
    parses, to the entry made of these fields. *)
Lemma parse_from_fields
  (line f0 f1 c : string) (rest : list string) (mi ho : value) :
  Py.split " " line = f0 :: f1 :: c :: rest ->
  parsed_field f0 mi -> wf_field 0 59 mi = true ->
  parsed_field f1 ho -> wf_field 0 23 ho = true ->
  _parse_stdin_line line = ([], Ok (mkLine mi ho (VStr c))).
Proof.
  intros Hs Hf0 Hw0 Hf1 Hw1.
  pose proof (split_three_nonempty _ _ _ _ Hs) as Hline.
  unfold_parsers. rewrite Hs, Hline. simpl.
  destruct Hf0 as [[-> ->] | (m & Hm & ->)]; destruct Hf1 as [[-> ->] | (h & Hh & ->)];
    simpl in Hw0, Hw1; simpl.
  - reflexivity.
  - rewrite (int_not_star _ _ Hh), Hh. simpl.
    replace ((h <? 0) || (h >? 23)) with false by lia. reflexivity.
  - rewrite (int_not_star _ _ Hm), Hm. simpl.
    replace ((m <? 0) || (m >? 59)) with false by lia. reflexivity.
  - rewrite (int_not_star _ _ Hm), Hm. simpl.
    replace ((m <? 0) || (m >? 59)) with false by lia. simpl.
    rewrite (int_not_star _ _ Hh), Hh. simpl.
    replace ((h <? 0) || (h >? 23)) with false by lia. reflexivity.
Qed.

(** Every way [_parse_stdin_line] can end. *)
Lemma parse_stdin_line_cases (line : string) (out : list string) (r : outcome Line) :
  _parse_stdin_line line = (out, r) ->
  match r with
  | Ok _ => out = []
  | Raise e => e = IndexError /\ out = []
  | Exit code => In code stdin_line_exit_codes /\ exists msg, out = [msg; usage]
  end.
Proof.
  unfold_parsers.
  destruct (Py.split " " line) as [| f0 [| f1 [| c rest]]]; parse_steps;
    intros H; cbn in H; injection H as <- <-; simpl; eauto 8.
Qed.

(** [_parse_stdin_line] accepts exactly the lines of at least three
    space-separated fields whose first is the wildcard or reads as an
    integer in 0..59 and whose second is the wildcard or reads as an
    integer in 0..23; the entry holds these two fields and the third as
    its command, and nothing is printed. *)
Theorem parse_stdin_line_accepts (line : string) (e : Line) :
  _parse_stdin_line line = ([], Ok e) <->
  exists f0 f1 c rest,
    Py.split " " line = f0 :: f1 :: c :: rest /\
    parsed_field f0 (line_minute e) /\ wf_field 0 59 (line_minute e) = true /\
    parsed_field f1 (line_hour e) /\ wf_field 0 23 (line_hour e) = true /\
    line_command e = VStr c.
Proof.
  split.
  - intros H.
    destruct (parse_stdin_line_ok _ _ _ H)
      as (_ & Hwf & f0 & f1 & c & rest & Hs & H0 & H1 & Hc).
    apply andb_prop in Hwf. destruct Hwf as [Hw0 Hw1].
    exists f0, f1, c, rest. auto 10.
  - intros (f0 & f1 & c & rest & Hs & H0 & Hw0 & H1 & Hw1 & Hc).
    destruct e as [mi ho co]. simpl in *. subst co.
    exact (parse_from_fields _ _ _ _ _ _ _ Hs H0 Hw0 H1 Hw1).
Qed.

(** [_parse_stdin_line] ends in one of three ways: with an entry and no
    output; with an uncaught [IndexError] and no output; or, after one
    message and the usage line, with exit status 7, 8, 10, 11 or 12. *)
Theorem parse_stdin_line_outcomes (line : string) :
  (exists e, _parse_stdin_line line = ([], Ok e)) \/
  _parse_stdin_line line = ([], Raise IndexError) \/
  (exists msg code,
      _parse_stdin_line line = ([msg; usage], Exit code) /\
      In code stdin_line_exit_codes).
Proof.
  destruct (_parse_stdin_line line) as [out r] eqn:E.
  pose proof (parse_stdin_line_cases line out r E) as H.
  destruct r as [e | x | code].
  - subst out. left. eauto.
  - destruct H as [-> ->]. right. left. reflexivity.
  - destruct H as (Hin & msg & ->). right. right. eauto.
Qed.

Lemma minute_out_of_range_rejected_witness :
  _parse_stdin_line "60 * /bin/job"
  = (["could not parse minute column - 60 out of range"; usage], Exit 10).
Proof.
  apply (minute_out_of_range_rejected "60 * /bin/job" "60" ["*"; "/bin/job"] 60);
    try reflexivity. lia.
Defined.

Lemma hour_out_of_range_rejected_witness :
  _parse_stdin_line "30 24 /bin/job"
  = (["could not parse hour column - 30 out of range"; usage], Exit 11).
Proof.
  apply (hour_out_of_range_rejected "30 24 /bin/job" "30" "24" ["/bin/job"] (VInt 30) 24);
    try reflexivity.
  - right. exists 30. split; reflexivity.
  - lia.
Defined.

(** A first field that is neither the wildcard nor readable by [int] is
    rejected with exit status 7; the message quotes the whole line. *)
Theorem minute_unreadable_rejected (line f0 : string) (rest : list string) :
  line <> "" -> Py.split " " line = f0 :: rest -> f0 <> "*" -> Py.int f0 = None ->
  _parse_stdin_line line
  = (["could not parse integer - invalid input: minute column " ++ line; usage], Exit 7).
Proof.
  intros Hne Hs Hstar Hint.
  apply String.eqb_neq in Hne. apply String.eqb_neq in Hstar.
  unfold_parsers. rewrite Hs, Hne. simpl. rewrite Hstar, Hint. reflexivity.
Qed.

Lemma minute_unreadable_rejected_witness :
  _parse_stdin_line "every * /bin/job"
  = (["could not parse integer - invalid input: minute column every * /bin/job"; usage],
     Exit 7).
Proof.
  apply (minute_unreadable_rejected "every * /bin/job" "every" ["*"; "/bin/job"]);
    try reflexivity; discriminate.
Defined.

(** With an acceptable first field, a second field that is neither the
    wildcard nor readable by [int] is rejected with exit status 8. *)
Theorem hour_unreadable_rejected
  (line f0 f1 : string) (rest : list string) (mi : value) :
  Py.split " " line = f0 :: f1 :: rest ->
  parsed_field f0 mi -> wf_field 0 59 mi = true ->
  f1 <> "*" -> Py.int f1 = None ->
  _parse_stdin_line line
  = (["could not parse integer - invalid input: hour column " ++ line; usage], Exit 8).
Proof.
  intros Hs Hf0 Hw0 Hstar Hint.
  pose proof (split_three_nonempty _ _ _ _ Hs) as Hline.
  apply String.eqb_neq in Hstar.
  unfold_parsers. rewrite Hs, Hline. simpl.
  destruct Hf0 as [[-> ->] | (m & Hm & ->)]; simpl in Hw0; simpl.
  - rewrite Hstar, Hint. reflexivity.
  - rewrite (int_not_star _ _ Hm), Hm. simpl.
    replace ((m <? 0) || (m >? 59)) with false by lia. simpl.
    rewrite Hstar, Hint. reflexivity.
Qed.

Lemma hour_unreadable_rejected_witness :
  _parse_stdin_line "30 noon /bin/job"
  = (["could not parse integer - invalid input: hour column 30 noon /bin/job"; usage],
     Exit 8).
Proof.
  apply (hour_unreadable_rejected "30 noon /bin/job" "30" "noon" ["/bin/job"] (VInt 30));
    try reflexivity.
  - right. exists 30. split; reflexivity.
  - discriminate.
Defined.

(** A non-empty line of fewer than three fields whose fields are
    acceptable is not rejected: building the entry raises [IndexError],
    and nothing has been printed. *)
Theorem too_few_fields_raise (line f0 : string) (rest : list string) (mi : value) :
  line <> "" -> Py.split " " line = f0 :: rest -> (List.length rest < 2)%nat ->
  parsed_field f0 mi -> wf_field 0 59 mi = true ->
  (forall f1, rest = [f1] -> exists ho, parsed_field f1 ho /\ wf_field 0 23 ho = true) ->
  _parse_stdin_line line = ([], Raise IndexError).
Proof.
  intros Hne Hs Hlen Hf0 Hw0 Hrest.
  apply String.eqb_neq in Hne.
  destruct rest as [| f1 [| f2 rest']]; [| | simpl in Hlen; lia].
  - unfold_parsers. rewrite Hs, Hne. simpl.
    destruct Hf0 as [[-> ->] | (m & Hm & ->)]; simpl in Hw0; simpl.
    + reflexivity.
    + rewrite (int_not_star _ _ Hm), Hm. simpl.
      replace ((m <? 0) || (m >? 59)) with false by lia. reflexivity.
  - destruct (Hrest f1 eq_refl) as (ho & Hf1 & Hw1).
    unfold_parsers. rewrite Hs, Hne. simpl.
    destruct Hf0 as [[-> ->] | (m & Hm & ->)];
      destruct Hf1 as [[-> ->] | (h & Hh & ->)]; simpl in Hw0, Hw1; simpl.
    + reflexivity.
    + rewrite (int_not_star _ _ Hh), Hh. simpl.
      replace ((h <? 0) || (h >? 23)) with false by lia. reflexivity.
    + rewrite (int_not_star _ _ Hm), Hm. simpl.
      replace ((m <? 0) || (m >? 59)) with false by lia. reflexivity.
    + rewrite (int_not_star _ _ Hm), Hm. simpl.
      replace ((m <? 0) || (m >? 59)) with false by lia. simpl.
      rewrite (int_not_star _ _ Hh), Hh. simpl.
      replace ((h <? 0) || (h >? 23)) with false by lia. reflexivity.
Qed.

Lemma too_few_fields_raise_witness : _parse_stdin_line "* 19" = ([], Raise IndexError).
Proof.
  apply (too_few_fields_raise "* 19" "*" ["19"] star); try reflexivity.
  - discriminate.
  - simpl. lia.
  - left. split; reflexivity.
  - intros f1 H. injection H as <-. exists (VInt 19). split; [| reflexivity].
    right. exists 19. split; reflexivity.
Defined.

Lemma field_text (lo hi : Z) (v : value) :
  0 <= lo -> hi <= 59 -> wf_field lo hi v = true ->
  no_char " " (Py.str v) = true /\ parsed_field (Py.str v) v.
Proof.
  intros Hlo Hhi Hwf. destruct (wf_field_inv _ _ _ Hwf) as [-> | (z & -> & Hz)].
  - split; [reflexivity | left; split; reflexivity].
  - destruct (decimal_facts z) as (Hsp & _ & _ & Hint & _); [lia |].
    split; [exact Hsp |]. right. exists z. split; [exact Hint | reflexivity].
Qed.

(** Round trip: the line [<minute> <hour> <command>] written from a
    well-formed entry whose command has no space, the empty command
    included, is read back as that entry. *)
Theorem parse_show_line (e : Line) (c : string) :
  wf_line e = true -> line_command e = VStr c -> no_space c = true ->
  _parse_stdin_line (show_line e) = ([], Ok e).
Proof.
  intros Hwf Hc Hsp. destruct e as [mi ho co]. simpl in Hc. subst co.
  unfold wf_line in Hwf. simpl in Hwf. apply andb_prop in Hwf. destruct Hwf as [Hw0 Hw1].
  destruct (field_text 0 59 mi) as (Hs0 & Hp0); [lia | lia | exact Hw0 |].
  destruct (field_text 0 23 ho) as (Hs1 & Hp1); [lia | lia | exact Hw1 |].
  rewrite no_space_no_char in Hsp.
  apply (parse_from_fields _ (Py.str mi) (Py.str ho) c []); auto.
  unfold show_line. simpl.
  change (Py.str mi ++ " " ++ Py.str ho ++ " " ++ c)
    with (Py.str mi ++ String " " (Py.str ho ++ String " " c)).
  rewrite (split_sep_app _ _ _ Hs0), (split_sep_app _ _ _ Hs1), (split_no_sep _ _ Hsp).
  reflexivity.
Qed.

Lemma parse_show_line_witness :
  _parse_stdin_line "45 * " = ([], Ok (mkLine (VInt 45) star (VStr ""))).
Proof.
  apply (parse_show_line (mkLine (VInt 45) star (VStr "")) ""); reflexivity.
Defined.

Lemma split_app (sep : ascii) (a b : string) :
  Py.split sep (a ++ String sep b) = (Py.split sep a ++ Py.split sep b)%list.
Proof.
  induction a as [| c r IH]; simpl.
  - rewrite Ascii.eqb_refl. reflexivity.
  - destruct (Ascii.eqb c sep); rewrite IH; [reflexivity |].
    destruct (Py.split sep r) as [| h t] eqn:E; [| reflexivity].
    exfalso. exact (split_nonempty _ _ E).
Qed.

(** Whatever follows the third field of an accepted line, after a space,
    changes nothing: the line with more text appended parses to the same
    entry. *)
Theorem extra_fields_ignored (line extra : string) (out : list string) (e : Line) :
  _parse_stdin_line line = (out, Ok e) ->
  _parse_stdin_line (line ++ " " ++ extra) = ([], Ok e).
Proof.
  intros H.
  destruct (parse_stdin_line_ok _ _ _ H)
    as (_ & Hwf & f0 & f1 & c & rest & Hs & H0 & H1 & Hc).
  apply andb_prop in Hwf. destruct Hwf as [Hw0 Hw1].
  destruct e as [mi ho co]. simpl in *. subst co.
  apply (parse_from_fields _ f0 f1 c (rest ++ Py.split " " extra)%list); auto.
  change (line ++ " " ++ extra) with (line ++ String " " extra).
  rewrite split_app, Hs. reflexivity.
Qed.

Lemma extra_fields_ignored_witness :
  _parse_stdin_line ("30 1 /bin/job" ++ " " ++ "--verbose  now")
  = ([], Ok (mkLine (VInt 30) (VInt 1) (VStr "/bin/job"))).
Proof.
  apply (extra_fields_ignored "30 1 /bin/job" "--verbose  now" []). reflexivity.
Defined.

(** ** Reading the configuration *)

(** Every way the reading loop can end, from any accumulated
    configuration. *)
Lemma get_stdin_loop_cases (reads : list string) :
  forall (cfg : list Line) (out : list string) (r : outcome (list Line)),
    get_stdin_loop reads cfg = (out, r) ->
    match r with
    | Ok cfg' =>
        out = [] /\
        exists parsed,
          cfg' = (cfg ++ parsed)%list /\
          Forall2 reads_as (until_eof reads) parsed /\
          (has_eof reads = true \/ cfg' <> [])
    | Raise e => e = IndexError /\ out = []
    | Exit code =>
        (exists msg, out = [msg; usage]) /\
        ((code = 9 /\ cfg = [] /\ reads = []) \/ In code stdin_line_exit_codes)
    end.
Proof.
  induction reads as [| line rest IH]; intros cfg out r.
  - simpl. unfold reject_if. destruct cfg as [| e cfg]; simpl; intros H;
      injection H as <- <-.
    + split; [eauto | left; auto].
    + split; [reflexivity |]. exists []. rewrite app_nil_r.
      split; [reflexivity |]. split; [constructor | right; discriminate].
  - simpl. destruct (String.eqb line "") eqn:El; simpl.
    + intros H. injection H as <- <-.
      split; [reflexivity |]. exists []. rewrite app_nil_r.
      split; [reflexivity |]. split; [constructor | left; reflexivity].
    + destruct (_parse_stdin_line (Py.rstrip_crlf line)) as [o1 r1] eqn:E1.
      pose proof (parse_stdin_line_cases _ _ _ E1) as H1.
      destruct r1 as [p | e | code]; simpl.
      * subst o1.
        destruct (get_stdin_loop rest (cfg ++ [p])%list) as [o2 r2] eqn:E2.
        specialize (IH _ _ _ E2).
        intros H. injection H as <- <-.
        destruct r2 as [cfg' | e | code].
        -- destruct IH as (-> & parsed & -> & HF & Hend).
           split; [reflexivity |]. exists (p :: parsed).
           rewrite <- app_assoc. split; [reflexivity |].
           split; [constructor; [exact E1 | exact HF] |].
           right. destruct cfg; discriminate.
        -- exact IH.
        -- destruct IH as (Hout & [(_ & Hnil & _) | Hin]).
           ++ destruct cfg; discriminate Hnil.
           ++ split; [exact Hout | right; exact Hin].
      * intros H. injection H as <- <-. exact H1.
      * intros H. injection H as <- <-. destruct H1 as (Hin & Hmsg).
        split; [exact Hmsg | right; exact Hin].
Qed.

Lemma get_stdin_loop_complete (reads : list string) :
  forall (cfg parsed : list Line),
    Forall2 reads_as (until_eof reads) parsed ->
    has_eof reads = true \/ (cfg ++ parsed)%list <> [] ->
    get_stdin_loop reads cfg = ([], Ok (cfg ++ parsed)%list).
Proof.
  induction reads as [| line rest IH]; intros cfg parsed HF Hend.
  - simpl in HF. inversion HF; subst. rewrite app_nil_r in *.
    destruct Hend as [Hend | Hend]; [discriminate Hend |].
    simpl. unfold reject_if. destruct cfg; [contradiction | reflexivity].
  - simpl in *. destruct (String.eqb line "") eqn:El; simpl.
    + inversion HF; subst. rewrite app_nil_r. reflexivity.
    + inversion HF as [| l p ls ps Hp HF']; subst.
      unfold reads_as in Hp. rewrite Hp. simpl.
      rewrite (IH (cfg ++ [p])%list ps HF').
      * rewrite <- app_assoc. reflexivity.
      * right. destruct cfg; discriminate.
Qed.

Lemma reads_as_nonempty (line : string) (e : Line) : reads_as line e -> line <> "".
Proof.
  intros H ->. discriminate H.
Qed.

Lemma reads_as_wf (line : string) (e : Line) : reads_as line e -> wf_line e = true.
Proof.
  intros H. exact (proj1 (proj2 (parse_stdin_line_ok _ _ _ H))).
Qed.

(** The reads before a line that does not parse, all of which parse, do
    not change how the reading ends: with the outcome of that line. *)
Lemma get_stdin_loop_first_failure (pre : list string) :
  forall (cfg parsed : list Line) (line : string) (post : list string)
         (out : list string) (r : outcome Line),
    Forall2 reads_as pre parsed -> line <> "" ->
    _parse_stdin_line (Py.rstrip_crlf line) = (out, r) ->
    (forall e, r <> Ok e) ->
    get_stdin_loop (pre ++ line :: post) cfg
    = (out, match r with
            | Ok _ => Ok []
            | Raise e => Raise e
            | Exit code => Exit code
            end).
Proof.
  induction pre as [| l pre IH]; intros cfg parsed line post out r HF Hne Hp Hr.
  - simpl. apply String.eqb_neq in Hne. rewrite Hne. simpl. rewrite Hp.
    destruct r as [e | e | code]; [exfalso; exact (Hr e eq_refl) | |]; reflexivity.
  - inversion HF as [| l' p ls ps Hl HF']; subst.
    pose proof (reads_as_nonempty _ _ Hl) as Hl0. apply String.eqb_neq in Hl0.
    simpl. rewrite Hl0. simpl. unfold reads_as in Hl. rewrite Hl. simpl.
    rewrite (IH (cfg ++ [p])%list ps line post out r HF' Hne Hp Hr).
    reflexivity.
Qed.

(** [get_stdin] succeeds exactly when every read before the end of the
    file parses and the end of the file is seen or there is at least one
    entry; the entries are those of the lines, one each and in their
    order.  An end of file without any line gives the empty
    configuration, not an error. *)
Theorem get_stdin_accepts (reads : list string) (cfg : list Line) :
  get_stdin reads = ([], Ok cfg) <->
  Forall2 reads_as (until_eof reads) cfg /\ (has_eof reads = true \/ cfg <> []).
Proof.
  unfold get_stdin. split.
  - intros H. destruct (get_stdin_loop_cases _ _ _ _ H) as (_ & parsed & -> & HF & Hend).
    simpl in *. split; assumption.
  - intros [HF Hend]. exact (get_stdin_loop_complete reads [] cfg HF Hend).
Qed.

(** Every entry that [get_stdin] returns is well formed: its minute is
    the wildcard or in 0..59 and its hour the wildcard or in 0..23. *)
Theorem get_stdin_entries_wf (reads : list string) (out : list string) (cfg : list Line) :
  get_stdin reads = (out, Ok cfg) -> Forall (fun e => wf_line e = true) cfg.
Proof.
  unfold get_stdin. intros H.
  destruct (get_stdin_loop_cases _ _ _ _ H) as (_ & parsed & -> & HF & _).
  simpl. clear H. induction HF as [| l e ls es Hl _ IH]; constructor.
  - exact (reads_as_wf _ _ Hl).
  - exact IH.
Qed.

Lemma get_stdin_entries_wf_witness :
  Forall (fun e => wf_line e = true) [mkLine (VInt 45) star (VStr "/bin/job")].
Proof.
  apply (get_stdin_entries_wf ["45 * /bin/job" ++ String "010" ""; ""] []).
  reflexivity.
Defined.

(** The complaint about a missing configuration, exit status 9, is made
    exactly when nothing at all can be read; an input that is at its end
    from the start is not such a case. *)
Theorem get_stdin_exit_9 (reads : list string) :
  (exists out, get_stdin reads = (out, Exit 9)) <-> reads = [].
Proof.
  unfold get_stdin. split.
  - intros (out & H).
    destruct (get_stdin_loop_cases _ _ _ _ H) as (_ & [(_ & _ & Hr) | Hin]).
    + exact Hr.
    + simpl in Hin. exfalso. intuition discriminate.
  - intros ->. eexists. reflexivity.
Qed.

(** Nothing is read past the end of the file: what follows the first
    empty read has no effect. *)
Theorem get_stdin_stops_at_eof (pre post : list string) :
  get_stdin (pre ++ "" :: post) = get_stdin (pre ++ [""]).
Proof.
  unfold get_stdin. generalize (@nil Line).
  induction pre as [| l pre IH]; intros cfg; simpl; [reflexivity |].
  destruct (negb (String.eqb l "")); [| reflexivity].
  destruct (_parse_stdin_line (Py.rstrip_crlf l)) as [o [p | e | code]]; simpl;
    [rewrite IH |..]; reflexivity.
Qed.

(** Reading stops at the first line that does not parse, with that
    line's output and ending, an exit or an uncaught exception; the lines
    after it are not looked at. *)
Theorem get_stdin_first_failure
  (pre : list string) (parsed : list Line) (line : string) (post : list string) :
  Forall2 reads_as pre parsed -> line <> "" ->
  (forall out code,
      _parse_stdin_line (Py.rstrip_crlf line) = (out, Exit code) ->
      get_stdin (pre ++ line :: post) = (out, Exit code)) /\
  (forall out e,
      _parse_stdin_line (Py.rstrip_crlf line) = (out, Raise e) ->
      get_stdin (pre ++ line :: post) = (out, Raise e)).
Proof.
  intros HF Hne. unfold get_stdin. split.
  - intros out code Hp.
    rewrite (get_stdin_loop_first_failure pre [] parsed line post out (Exit code));
      auto; discriminate.
  - intros out e Hp.
    rewrite (get_stdin_loop_first_failure pre [] parsed line post out (Raise e));
      auto; discriminate.
Qed.

Lemma get_stdin_first_failure_witness :
  get_stdin (["45 * /bin/job" ++ String "010" ""]
             ++ String "013" (String "010" "") :: ["61 * /bin/other"])
  = (["empty config line"; usage], Exit 12).
Proof.
  destruct (get_stdin_first_failure
              ["45 * /bin/job" ++ String "010" ""]
              [mkLine (VInt 45) star (VStr "/bin/job")]
              (String "013" (String "010" "")) ["61 * /bin/other"]) as [Hexit _].
  - constructor; [reflexivity | constructor].
  - discriminate.
  - apply Hexit. reflexivity.
Defined.

(** ** Printing and the whole run *)

Lemma prints_wf (t : Sct) (e : Line) : wf_line e = true -> exists text, prints t e text.
Proof.
  intros Hwf. destruct (runtime_total t e Hwf) as (h & m & d & Hr).
  destruct (print_runtime_of_runtime t e h m d Hr) as (mm & _ & Hp).
  eexists. exact Hp.
Qed.

Lemma print_runtimes_wf (t : Sct) (cfg : list Line) :
  Forall (fun e => wf_line e = true) cfg ->
  exists out, print_runtimes t cfg = (out, Ok tt) /\ Forall2 (prints t) cfg out.
Proof.
  induction 1 as [| e cfg He _ (out & Hout & HF)].
  - exists []. split; [reflexivity | constructor].
  - destruct (prints_wf t e He) as (text & Ht).
    exists (text :: out). split; [| constructor; assumption].
    simpl. unfold prints in Ht. rewrite Ht. simpl. rewrite Hout. reflexivity.
Qed.

Lemma get_stdin_ok_wf (reads : list string) (out : list string) (cfg : list Line) :
  get_stdin reads = (out, Ok cfg) -> out = [] /\ Forall (fun e => wf_line e = true) cfg.
Proof.
  unfold get_stdin. intros H.
  destruct (get_stdin_loop_cases _ _ _ _ H) as (-> & parsed & -> & HF & _).
  split; [reflexivity |].
  simpl. clear H. induction HF as [| l e ls es Hl _ IH]; constructor.
  - exact (reads_as_wf _ _ Hl).
  - exact IH.
Qed.

Lemma get_cla_two (prog arg : string) : get_cla [prog; arg] = _parse_sct arg.
Proof.
  unfold get_cla. simpl. destruct (_parse_sct arg) as [o r]. reflexivity.
Qed.

Lemma get_cla_wrong_count (argv : list string) :
  List.length argv <> 2%nat -> get_cla argv = ([usage], Exit 1).
Proof.
  intros H. unfold get_cla.
  destruct (Nat.eqb_spec (List.length argv) 2) as [E | _]; [contradiction | reflexivity].
Qed.

(** For well-formed entries the printing loop never fails and prints
    one line per entry, in the order of the entries. *)
Theorem print_runtimes_one_line_each (t : Sct) (cfg : list Line) :
  Forall (fun e => wf_line e = true) cfg ->
  exists out,
    print_runtimes t cfg = (out, Ok tt) /\
    Forall2 (prints t) cfg out /\ List.length out = List.length cfg.
Proof.
  intros H. destruct (print_runtimes_wf t cfg H) as (out & Hout & HF).
  exists out. split; [exact Hout |]. split; [exact HF |].
  symmetry. exact (Forall2_length HF).
Qed.

Lemma print_runtimes_one_line_each_witness :
  exists out,
    print_runtimes (mkSct 16 10)
      [mkLine (VInt 30) (VInt 1) (VStr "/bin/a"); mkLine star star (VStr "/bin/b")]
    = (out, Ok tt) /\
    Forall2 (prints (mkSct 16 10))
      [mkLine (VInt 30) (VInt 1) (VStr "/bin/a"); mkLine star star (VStr "/bin/b")] out /\
    List.length out = 2%nat.
Proof.
  apply (print_runtimes_one_line_each (mkSct 16 10)
           [mkLine (VInt 30) (VInt 1) (VStr "/bin/a"); mkLine star star (VStr "/bin/b")]).
  repeat constructor.
Defined.

(** A run whose time argument and configuration both parse ends
    normally, and its output is exactly one run time line per entry, in
    the order of the configuration. *)
Theorem run_succeeds
  (prog arg : string) (reads : list string) (t : Sct) (cfg : list Line) :
  _parse_sct arg = ([], Ok t) -> get_stdin reads = ([], Ok cfg) ->
  exists out,
    Cron__init__ [prog; arg] reads = (out, Ok tt) /\ Forall2 (prints t) cfg out.
Proof.
  intros Ht Hc.
  destruct (get_stdin_ok_wf _ _ _ Hc) as (_ & Hwf).
  destruct (print_runtimes_wf t cfg Hwf) as (out & Hout & HF).
  exists out. split; [| exact HF].
  unfold Cron__init__. rewrite get_cla_two, Ht. simpl. rewrite Hc. simpl.
  rewrite Hout. reflexivity.
Qed.

Lemma run_succeeds_witness :
  exists out,
    Cron__init__ ["cron.py"; "16:10"] ["45 * /bin/job" ++ String "010" ""; ""]
    = (out, Ok tt) /\
    Forall2 (prints (mkSct 16 10)) [mkLine (VInt 45) star (VStr "/bin/job")] out.
Proof.
  apply (run_succeeds "cron.py" "16:10"); reflexivity.
Defined.

(** Without exactly one argument the run prints the usage line and
    exits with status 1; standard input plays no part. *)
Theorem run_wrong_argument_count (argv reads : list string) :
  List.length argv <> 2%nat -> Cron__init__ argv reads = ([usage], Exit 1).
Proof.
  intros H. unfold Cron__init__. rewrite (get_cla_wrong_count argv H). reflexivity.
Qed.

Lemma run_wrong_argument_count_witness :
  Cron__init__ ["cron.py"] ["45 * /bin/job"; ""] = ([usage], Exit 1).
Proof.
  apply (run_wrong_argument_count ["cron.py"]). simpl. lia.
Defined.

(** A time argument that is rejected ends the run with the output and
    status of [_parse_sct], whatever standard input holds. *)
Theorem run_bad_time
  (prog arg : string) (reads : list string) (out : list string) (code : Z) :
  _parse_sct arg = (out, Exit code) ->
  Cron__init__ [prog; arg] reads = (out, Exit code).
Proof.
  intros H. unfold Cron__init__. rewrite get_cla_two, H. reflexivity.
Qed.

Lemma run_bad_time_witness :
  Cron__init__ ["cron.py"; "24:00"] ["45 * /bin/job"; ""]
  = (["could not parse simulated_current_time hour - 24 out of range"; usage], Exit 4).
Proof.
  apply (run_bad_time "cron.py" "24:00"). reflexivity.
Defined.

Lemma rejection_precedes_evaluation_witness :
  Cron__init__ ["cron.py"; "16:10"] ["45 * /bin/job" ++ String "010" ""; "61 * /bin/other"]
  = (["could not parse minute column - 61 out of range"; usage], Exit 10).
Proof.
  apply (rejection_precedes_evaluation
           ["cron.py"; "16:10"] _ (mkSct 16 10) [] _ 10); reflexivity.
Defined.


(** ** The evaluation, once more *)

Lemma runtime_range (t : Sct) (e : Line) (h m : Z) (d : day) :
  valid_sct t = true -> wf_line e = true ->
  runtime t e = Ok (VInt h, VInt m, d) -> 0 <= h <= 23 /\ 0 <= m <= 59.
Proof.
  intros Ht Hwf. apply valid_sct_inv in Ht.
  shapes e Hwf; unfold_cron; ztests; intros Hrt; injection Hrt as <- <- <-; lia.
Qed.

(** For every well-formed entry, firing now or not, the day is tomorrow
    exactly when the time of day of the next run lies before the
    current time: the next run is always less than a day away. *)
Theorem tomorrow_iff_before_now (t : Sct) (e : Line) (h m : Z) (d : day) :
  wf_line e = true -> runtime t e = Ok (VInt h, VInt m, d) ->
  (d = tomorrow <-> time_before h m t).
Proof.
  intros Hwf. unfold time_before.
  shapes e Hwf; unfold_cron; ztests; intros Hrt; injection Hrt as <- <- <-;
    split; intros; try discriminate; try reflexivity; lia.
Qed.

Lemma tomorrow_iff_before_now_witness :
  tomorrow = tomorrow <-> time_before 9 30 (mkSct 14 0).
Proof.
  apply (tomorrow_iff_before_now (mkSct 14 0) (mkLine (VInt 30) (VInt 9) (VStr "/bin/job")));
    reflexivity.
Defined.

(** For a well-formed entry the result is the current time, today,
    exactly when the entry fires now: an entry that does not fire now
    never resolves to the current hour and minute. *)
Theorem result_is_now_iff_run_now (t : Sct) (e : Line) :
  wf_line e = true ->
  (runtime t e = Ok (VInt (sct_hour t), VInt (sct_minute t), today) <->
   _run_now t e = true).
Proof.
  intros Hwf. split; [| apply runtime_now].
  shapes e Hwf; unfold_cron; ztests; intros Hrt; try reflexivity;
    injection Hrt; intros; lia.
Qed.

Lemma result_is_now_iff_run_now_witness :
  runtime (mkSct 16 10) (mkLine (VInt 10) star (VStr "/bin/job"))
  = Ok (VInt 16, VInt 10, today) <->
  _run_now (mkSct 16 10) (mkLine (VInt 10) star (VStr "/bin/job")) = true.
Proof.
  apply (result_is_now_iff_run_now (mkSct 16 10) (mkLine (VInt 10) star (VStr "/bin/job"))).
  reflexivity.
Defined.

(** The printed line of a valid time and a well-formed entry is
    [<hour>:<minute> <day> <command>] in which the minute has exactly
    two characters, and in which hour and minute read back, with [int],
    as the computed run time. *)
Theorem printed_line_reads_back (t : Sct) (e : Line) :
  valid_sct t = true -> wf_line e = true ->
  exists h m d mm,
    runtime t e = Ok (VInt h, VInt m, d) /\
    prints t e (Py.str_of_Z h ++ ":" ++ mm ++ " " ++ day_str d ++ " "
                ++ Py.str (line_command e)) /\
    String.length mm = 2%nat /\ Py.int mm = Some m /\
    Py.int (Py.str_of_Z h) = Some h /\ no_char ":" (Py.str_of_Z h) = true.
Proof.
  intros Ht Hwf.
  destruct (runtime_total t e Hwf) as (h & m & d & Hr).
  destruct (runtime_range t e h m d Ht Hwf Hr) as (Hh & Hm).
  destruct (print_runtime_of_runtime t e h m d Hr) as (mm & Hmm & Hp).
  destruct (decimal_facts m Hm) as (_ & _ & _ & _ & mm' & Hmm' & Hlen & Hback).
  rewrite Hmm in Hmm'. injection Hmm' as <-.
  destruct (decimal_facts h) as (_ & Hcol & _ & Hint & _); [lia |].
  exists h, m, d, mm. repeat split; assumption.
Qed.

Lemma printed_line_reads_back_witness :
  exists h m d mm,
    runtime (mkSct 5 0) (mkLine star (VInt 6) (VStr "/bin/job")) = Ok (VInt h, VInt m, d) /\
    prints (mkSct 5 0) (mkLine star (VInt 6) (VStr "/bin/job"))
      (Py.str_of_Z h ++ ":" ++ mm ++ " " ++ day_str d ++ " " ++ "/bin/job") /\
    String.length mm = 2%nat /\ Py.int mm = Some m /\
    Py.int (Py.str_of_Z h) = Some h /\ no_char ":" (Py.str_of_Z h) = true.
Proof.
  apply (printed_line_reads_back (mkSct 5 0) (mkLine star (VInt 6) (VStr "/bin/job")));
    reflexivity.
Defined.
